(** * apply_loudest_track_gain.py: a shallow embedding and its properties

    The script reads, for every album directory, the tab separated report
    [replaygain.csv], picks the gain of the loudest track, caps it by the
    album gain and writes the result as a ReplayGain album tag into every
    [.mp3] and [.m4a] file of the directory.

    Python values are modelled as follows.
    - [float] is an IEEE 754 binary64 number: [spec_float] of the Standard
      Library with precision 53 and maximal exponent 1024.
    - [str] is [string]: the UTF-8 bytes of the text.
    - a row of [csv.DictReader] is a [gmap string (option string)]; the
      value [None] is the [restval] of a short row.
    - exceptions are a result type with the exception classes the script
      can meet.
    - the file system is a [gmap] from paths to nodes, the log an
      append-only list of records. *)

From Stdlib Require Import ZArith String Ascii List Bool Lia.
From Stdlib Require Import Floats.SpecFloat DecimalString.
From stdpp Require Import gmap strings list fin_maps.

Import ListNotations.
Local Open Scope string_scope.
Local Open Scope Z_scope.

(** ** Floats *)

Module Float.

Definition prec : Z := 53.
Definition emax : Z := 1024.

Definition float := spec_float.

Definition ltb : float -> float -> bool := SFltb.
Definition leb : float -> float -> bool := SFleb.
Definition eqb : float -> float -> bool := SFeqb.
Definition sub : float -> float -> float := SFsub prec emax.
Definition abs : float -> float := SFabs.

(** [x > y] on floats is [y < x]. *)
Definition gtb (x y : float) : bool := ltb y x.

Definition is_nan (x : float) : bool :=
  match x with S754_nan => true | _ => false end.

(** The value of the decimal literal [(-1)^s * m * 10^e], rounded to the
    nearest binary64 number, ties to even. *)
Definition of_decimal (s : bool) (m : Z) (e : Z) : float :=
  match m with
  | Zpos p =>
      let num := Z.to_pos (Zpos p * 10 ^ Z.max e 0) in
      let den := Z.to_pos (10 ^ Z.max (- e) 0) in
      SFdiv prec emax (S754_finite s num 0) (S754_finite false den 0)
  | _ => S754_zero s
  end.

(** The literals of the script. *)
Definition lit_0_01 : float := S754_finite false 5764607523034235 (-59).
Definition lit_minus_999 : float := S754_finite true 8787296929185792 (-43).

(** [|x| * 100] rounded to an integer, ties to even: the digits of
    [format(x, ".2f")] for a finite [x = m * 2^e]. *)
Definition centi (m : positive) (e : Z) : Z :=
  if 0 <=? e then Zpos m * 2 ^ e * 100
  else
    let d := 2 ^ (- e) in
    let q := (Zpos m * 100) / d in
    let r := (Zpos m * 100) mod d in
    match Z.compare (2 * r) d with
    | Lt => q
    | Gt => q + 1
    | Eq => if Z.even q then q else q + 1
    end.

Definition dec (n : Z) : string := NilZero.string_of_uint (N.to_uint (Z.to_N n)).

Definition two_digits (n : Z) : string :=
  if n <? 10 then "0" ++ dec n else dec n.

(** [f"{x:.2f}"]. *)
Definition format_2f (x : float) : string :=
  match x with
  | S754_nan => "nan"
  | S754_infinity false => "inf"
  | S754_infinity true => "-inf"
  | S754_zero false => "0.00"
  | S754_zero true => "-0.00"
  | S754_finite s m e =>
      let n := centi m e in
      (if s then "-" else "") ++ dec (n / 100) ++ "." ++ two_digits (n mod 100)
  end.

End Float.

Abbreviation float := Float.float.

(** ** Strings *)

Module Str.

Definition lower_ascii (c : ascii) : ascii :=
  let n := nat_of_ascii c in
  if ((65 <=? n) && (n <=? 90))%nat then ascii_of_nat (n + 32) else c.

(** [s.lower()].  Only the letters A to Z are mapped; the script compares
    the result with "album", ".mp3" and ".m4a", and no character outside
    ASCII has a lower case form made of the letters of these words. *)
Fixpoint lower (s : string) : string :=
  match s with
  | EmptyString => EmptyString
  | String c r => String (lower_ascii c) (lower r)
  end.

(** [s.rfind(c)], counted from position [i] of the first character. *)
Fixpoint rfind_from (c : ascii) (s : string) (i : nat) : option nat :=
  match s with
  | EmptyString => None
  | String a r =>
      match rfind_from c r (S i) with
      | Some j => Some j
      | None => if Ascii.eqb a c then Some i else None
      end
  end.

Definition rfind (c : ascii) (s : string) : option nat := rfind_from c s 0.

(** [s[i:]]. *)
Definition from (i : nat) (s : string) : string :=
  substring i (String.length s - i) s.

End Str.

(** ** Paths *)

Module Path.

(** [os.path.basename(p)] and the [name] of a [pathlib] path built from a
    directory and an entry of its listing: what follows the last slash. *)
Definition basename (p : string) : string :=
  match Str.rfind "/" p with
  | Some i => Str.from (S i) p
  | None => p
  end.

(** [PurePath.suffix]: with [i = name.rfind('.')], the suffix is
    [name[i:]] when [0 < i < len(name) - 1] and empty otherwise. *)
Definition suffix_of_name (name : string) : string :=
  match Str.rfind "." name with
  | Some i =>
      if ((0 <? i) && (i <? String.length name - 1))%nat
      then Str.from i name else ""
  | None => ""
  end.

Definition suffix (p : string) : string := suffix_of_name (basename p).

Definition ends_with_slash (p : string) : bool :=
  match Str.rfind "/" p with
  | Some i => (S i =? String.length p)%nat
  | None => false
  end.

(** [os.path.join(folder, name)] and [Path(folder) / name] for a [name]
    that is an entry of a directory listing (no slash inside). *)
Definition join (folder name : string) : string :=
  if String.eqb folder "" then name
  else if ends_with_slash folder then folder ++ name
  else folder ++ "/" ++ name.

End Path.

(** ** Exceptions *)

Inductive exn :=
  | KeyError
  | TypeError
  | AttributeError
  | ValueError
  | OSError
  | LibraryError.

Inductive result (A : Type) :=
  | Ok (a : A)
  | Raise (e : exn).

Arguments Ok {A} a.
Arguments Raise {A} e.

#[global] Instance result_ret : MRet result := @Ok.
#[global] Instance result_bind : MBind result :=
  fun A B f m => match m with Ok a => f a | Raise e => Raise e end.

(** ** The report as [csv.DictReader] yields it *)

Abbreviation row := (gmap string (option string)).

(** [dict(zip(fieldnames, record))], then [restval = None] under the field
    names a short record leaves without a value.  The entry a long record
    gets under the key [None] is left out: the script looks up strings. *)
Definition dict_of_record (fieldnames record : list string) : row :=
  let d := foldl (fun d kv => <[fst kv := Some (snd kv)]> d) ∅ (zip fieldnames record) in
  foldl (fun d k => <[k := None]> d) d (drop (length record) fieldnames).

(** The first record is the header; empty records are passed over. *)
Definition DictReader (records : list (list string)) : list row :=
  match records with
  | [] => []
  | fieldnames :: rest =>
      dict_of_record fieldnames <$> filter (fun r => r ≠ []) rest
  end.

(** What [csv.reader] yields for a file: its records, and the exception
    that ends the iteration after them when reading or decoding fails. *)
Record csv_stream := { records : list (list string); failure : option exn }.

(** [row[key]] *)
Definition getitem (d : row) (key : string) : result (option string) :=
  match d !! key with
  | Some v => Ok v
  | None => Raise KeyError
  end.

(** [v.lower()] for a cell [v]. *)
Definition cell_lower (v : option string) : result string :=
  match v with
  | Some s => Ok (Str.lower s)
  | None => Raise AttributeError
  end.

(** [min(a, b)] of the builtins: the second argument replaces the first
    only when it is smaller. *)
Definition py_min (a b : float) : float := if Float.ltb b a then b else a.

(** ** Constants of the script *)

Definition DEFAULT_CSV : string := "replaygain.csv".
Definition M4A_TAG_KEY : string := "----:com.apple.iTunes:REPLAYGAIN_ALBUM_GAIN".
Definition MP3_TAG_KEY : string := "REPLAYGAIN_ALBUM_GAIN".
Definition VALID_EXTENSIONS : list string := [".mp3"; ".m4a"].

(** [ext in VALID_EXTENSIONS] *)
Definition in_valid_extensions (ext : string) : bool :=
  existsb (String.eqb ext) VALID_EXTENSIONS.

(** ** The libraries the script calls *)

Inductive id3_load (T : Type) :=
  | Id3Loaded (t : T)
  | Id3NoHeader
  | Id3Fails (e : exn).

Arguments Id3Loaded {T} t.
Arguments Id3NoHeader {T}.
Arguments Id3Fails {T} e.

(** File contents and the operations of [csv] and [mutagen] on them.  A
    [save] returns the contents it leaves on disk and whether it raised. *)
Class Libraries := {
  content : Type;
  (** [open(path, newline='', encoding='utf-8')], then
      [csv.reader(f, delimiter='\t')] *)
  csv_reader : content -> result csv_stream;
  mp4 : Type;
  (** [MP4(file_path)] *)
  MP4 : content -> result mp4;
  (** [audio[key] = [MP4FreeForm(v.encode("utf-8")) for v in values]] *)
  mp4_setitem : string -> list string -> mp4 -> mp4;
  (** [audio.save()] *)
  mp4_save : mp4 -> content -> content * result unit;
  id3 : Type;
  (** [ID3(file_path)] *)
  ID3 : content -> id3_load id3;
  (** [ID3()] *)
  ID3_empty : id3;
  (** [audio.add(TXXX(encoding=3, desc=desc, text=text))] *)
  id3_add_TXXX : string -> string -> id3 -> id3;
  (** [audio.save(file_path)] *)
  id3_save : id3 -> content -> content * result unit
}.

(** ** Logging *)

Inductive level := INFO | WARNING | ERROR.

(** The messages of the script, each with the values its text shows (the
    gains are printed with two decimals). *)
Inductive message :=
  | UnableToReadCsv (csv_path : string) (e : exn)
  | WriteFailed (file_path : string) (e : exn)
  | MissingCsv (album_name : string)
  | NoValidGain (album_name : string)
  | NoNeedToWrite (album_name : string) (loudest_gain album_max_gain : float)
  | WillWrite (album_name : string) (loudest_gain album_max_gain gain_to_write : float).

Definition log_record : Type := level * message.

(** ** The script *)

Section Script.

Context `{Libraries}.

(** [float(s)] of the builtins on a string: [None] when it raises
    [ValueError]. *)
Variable py_float : string -> option float.

(** [float(v)] for a cell [v]; [float(None)] raises [TypeError]. *)
Definition float_of_cell (v : option string) : result float :=
  match v with
  | None => Raise TypeError
  | Some s =>
      match py_float s with
      | Some x => Ok x
      | None => Raise ValueError
      end
  end.

Inductive node :=
  | File (c : content)
  | Dir (names : list string).

Record state := { fs : gmap string node; log : list log_record }.

Definition logging (lv : level) (m : message) (st : state) : state :=
  {| fs := fs st; log := log st ++ [(lv, m)] |}.

Definition set_file (p : string) (c : content) (st : state) : state :=
  {| fs := <[p := File c]> (fs st); log := log st |}.

(** [os.path.isfile(p)] *)
Definition isfile (st : state) (p : string) : bool :=
  match fs st !! p with
  | Some (File _) => true
  | _ => false
  end.

(** [os.listdir(p)] *)
Definition listdir (st : state) (p : string) : result (list string) :=
  match fs st !! p with
  | Some (Dir names) => Ok names
  | _ => Raise OSError
  end.

Definition open_csv (st : state) (csv_path : string) : result csv_stream :=
  match fs st !! csv_path with
  | Some (File c) => csv_reader c
  | _ => Raise OSError
  end.

(** *** get_loudest_track_gain *)

Record scan := { max_loudness : float; target_gain : option float }.

Definition scan_init : scan :=
  {| max_loudness := Float.lit_minus_999; target_gain := None |}.

(** The two conversions of the inner [try]. *)
Definition loudness_and_gain (r : row) : result (float * float) :=
  loudness ← getitem r "Loudness (LUFS)" ≫= float_of_cell;
  gain ← getitem r "Gain (dB)" ≫= float_of_cell;
  Ok (loudness, gain).

(** The body of the loop over the rows. *)
Definition loudest_row (s : scan) (r : row) : result scan :=
  name ← getitem r "Filename" ≫= cell_lower;
  if String.eqb name "album" then Ok s
  else
    match loudness_and_gain r with
    | Raise ValueError => Ok s
    | Raise e => Raise e
    | Ok (loudness, gain) =>
        if Float.gtb loudness (max_loudness s)
        then Ok {| max_loudness := loudness; target_gain := Some gain |}
        else Ok s
    end.

Fixpoint loudest_rows (s : scan) (rows : list row) : result scan :=
  match rows with
  | [] => Ok s
  | r :: rest => s' ← loudest_row s r; loudest_rows s' rest
  end.

(** The iteration ends with the exception of the stream, if it has one. *)
Definition end_of_stream (stream : csv_stream) : result unit :=
  match failure stream with
  | Some e => Raise e
  | None => Ok tt
  end.

Definition loudest_of_file (st : state) (csv_path : string) : result (option float) :=
  stream ← open_csv st csv_path;
  s ← loudest_rows scan_init (DictReader (records stream));
  _ ← end_of_stream stream;
  Ok (target_gain s).

Definition get_loudest_track_gain (csv_path : string) (st : state)
  : option float * state :=
  match loudest_of_file st csv_path with
  | Ok g => (g, st)
  | Raise e => (None, logging ERROR (UnableToReadCsv csv_path e) st)
  end.

(** *** get_album_max_gain *)

(** The loop over the rows: [Some v] when it returns [v] at a row,
    [None] when the rows are used up. *)
Fixpoint album_rows (rows : list row) : result (option (option float)) :=
  match rows with
  | [] => Ok None
  | r :: rest =>
      name ← getitem r "Filename" ≫= cell_lower;
      if String.eqb name "album" then
        match getitem r "Gain (dB)" ≫= float_of_cell with
        | Ok g => Ok (Some (Some g))
        | Raise ValueError => Ok (Some None)
        | Raise e => Raise e
        end
      else album_rows rest
  end.

Definition album_of_file (st : state) (csv_path : string) : result (option float) :=
  stream ← open_csv st csv_path;
  found ← album_rows (DictReader (records stream));
  match found with
  | Some v => Ok v
  | None => _ ← end_of_stream stream; Ok None
  end.

Definition get_album_max_gain (csv_path : string) (st : state)
  : option float * state :=
  match album_of_file st csv_path with
  | Ok g => (g, st)
  | Raise e => (None, logging ERROR (UnableToReadCsv csv_path e) st)
  end.

(** *** write_gain *)

Definition write_m4a (file_path gain_str : string) (st : state) : state * result unit :=
  match fs st !! file_path with
  | Some (File c) =>
      match MP4 c with
      | Ok audio =>
          let audio := mp4_setitem M4A_TAG_KEY [gain_str] audio in
          let '(c', r) := mp4_save audio c in
          (set_file file_path c' st, r)
      | Raise e => (st, Raise e)
      end
  | _ => (st, Raise OSError)
  end.

Definition write_mp3 (file_path gain_str : string) (st : state) : state * result unit :=
  match fs st !! file_path with
  | Some (File c) =>
      let opened :=
        match ID3 c with
        | Id3Loaded audio => Ok audio
        | Id3NoHeader => Ok ID3_empty
        | Id3Fails e => Raise e
        end in
      match opened with
      | Ok audio =>
          let audio := id3_add_TXXX MP3_TAG_KEY gain_str audio in
          let '(c', r) := id3_save audio c in
          (set_file file_path c' st, r)
      | Raise e => (st, Raise e)
      end
  | _ => (st, Raise OSError)
  end.

Definition write_gain (file_path : string) (gain_db : float) (dry_run : bool)
    (st : state) : state :=
  let ext := Str.lower (Path.suffix file_path) in
  let gain_str := Float.format_2f gain_db ++ " dB" in
  if dry_run then st
  else
    let '(st', r) :=
      if String.eqb ext ".m4a" then write_m4a file_path gain_str st
      else if String.eqb ext ".mp3" then write_mp3 file_path gain_str st
      else (st, Ok tt) in
    match r with
    | Ok _ => st'
    | Raise e => logging ERROR (WriteFailed file_path e) st'
    end.

(** *** process_album *)

(** One turn of the loop over the listing. *)
Definition album_file (folder_path : string) (gain_to_write : float)
    (dry_run : bool) (st : state) (filename : string) : state :=
  let file_path := Path.join folder_path filename in
  if negb (in_valid_extensions (Str.lower (Path.suffix file_path))) then st
  else write_gain file_path gain_to_write dry_run st.

(** [abs(gain_to_write - album_max_gain) < 0.01] *)
Definition within_tolerance (gain_to_write album_max_gain : float) : bool :=
  Float.ltb (Float.abs (Float.sub gain_to_write album_max_gain)) Float.lit_0_01.

(** The exception of the result is the one [os.listdir] lets escape. *)
Definition process_album (folder_path : string) (dry_run : bool) (st : state)
  : state * result unit :=
  let csv_path := Path.join folder_path DEFAULT_CSV in
  let album_name := "[" ++ Path.basename folder_path ++ "]" in
  if negb (isfile st csv_path) then
    (logging WARNING (MissingCsv album_name) st, Ok tt)
  else
    let '(loudest_gain, st) := get_loudest_track_gain csv_path st in
    let '(album_max_gain, st) := get_album_max_gain csv_path st in
    match loudest_gain, album_max_gain with
    | Some loudest_gain, Some album_max_gain =>
        let gain_to_write := py_min loudest_gain album_max_gain in
        if within_tolerance gain_to_write album_max_gain then
          (logging INFO (NoNeedToWrite album_name loudest_gain album_max_gain) st, Ok tt)
        else
          let st := logging INFO
                      (WillWrite album_name loudest_gain album_max_gain gain_to_write) st in
          match listdir st folder_path with
          | Ok names =>
              (foldl (album_file folder_path gain_to_write dry_run) st names, Ok tt)
          | Raise e => (st, Raise e)
          end
    | _, _ => (logging WARNING (NoValidGain album_name) st, Ok tt)
    end.

(** *** main: the number of workers *)

(** [os.cpu_count() or 2]: [None] and [0] are false. *)
Definition num_threads (cpu_count : option Z) : Z :=
  match cpu_count with
  | Some n => if n =? 0 then 2 else n
  | None => 2
  end.

(** *** main: the album directories *)

Definition is_dir (st : state) (p : string) : bool :=
  match fs st !! p with
  | Some (Dir _) => true
  | _ => false
  end.

(** [os.walk(top)]: top down, a directory that cannot be listed is passed
    over, the entries that are no directories are its file names.  The
    walk goes [depth] directories deep. *)
Fixpoint walk (depth : nat) (st : state) (top : string)
  : list (string * list string * list string) :=
  match depth with
  | O => []
  | S depth' =>
      match listdir st top with
      | Raise _ => []
      | Ok names =>
          let dirs := List.filter (fun n => is_dir st (Path.join top n)) names in
          let nondirs := List.filter (fun n => negb (is_dir st (Path.join top n))) names in
          (top, dirs, nondirs)
            :: flat_map (fun d => walk depth' st (Path.join top d)) dirs
      end
  end.

(** The loop of [main] over the walk: the directories with
    [DEFAULT_CSV] among their file names. *)
Fixpoint album_folders_of (walked : list (string * list string * list string))
  : list string :=
  match walked with
  | [] => []
  | (dirpath, _, filenames) :: rest =>
      if existsb (String.eqb DEFAULT_CSV) filenames
      then dirpath :: album_folders_of rest
      else album_folders_of rest
  end.

Definition album_folders (depth : nat) (st : state) (root_dir : string) : list string :=
  album_folders_of (walk depth st root_dir).

End Script.

Arguments File {_} c.
Arguments Dir {_} names.

(** ** [float(s)] on ASCII text

    The grammar of the builtin for a string of ASCII characters: optional
    white space around an optional sign and then "inf", "infinity", "nan"
    (in any case) or a decimal number with an optional exponent, where an
    underscore may stand between two digits.  The value is rounded to the
    nearest binary64 number.  (The builtin also reads the decimal digits
    and the spaces of other scripts; this function rejects them.) *)

Module PyFloat.

Definition is_space (c : ascii) : bool :=
  let n := nat_of_ascii c in
  ((n =? 32) || ((9 <=? n) && (n <=? 13)))%nat.

Fixpoint lstrip (s : list ascii) : list ascii :=
  match s with
  | c :: r => if is_space c then lstrip r else s
  | [] => []
  end.

Definition strip (s : list ascii) : list ascii :=
  rev (lstrip (rev (lstrip s))).

Definition digit (c : ascii) : option Z :=
  let n := nat_of_ascii c in
  if ((48 <=? n) && (n <=? 57))%nat then Some (Z.of_nat n - 48) else None.

(** Reads [digit (["_"] digit)*] after [n] digits with value [acc]. *)
Fixpoint digitpart (s : list ascii) (acc : Z) (n : nat) {struct s}
  : Z * nat * list ascii :=
  match s with
  | c :: r =>
      match digit c with
      | Some d => digitpart r (10 * acc + d) (S n)
      | None =>
          if (Ascii.eqb c "_" && (0 <? n)%nat)%bool then
            match r with
            | c' :: r' =>
                match digit c' with
                | Some d => digitpart r' (10 * acc + d) (S n)
                | None => (acc, n, s)
                end
            | [] => (acc, n, s)
            end
          else (acc, n, s)
      end
  | [] => (acc, n, s)
  end.

Definition sign (s : list ascii) : bool * list ascii :=
  match s with
  | c :: r =>
      if Ascii.eqb c "-" then (true, r)
      else if Ascii.eqb c "+" then (false, r)
      else (false, s)
  | [] => (false, s)
  end.

(** [[digitpart] "." digitpart | digitpart ["."]]: the digits as one
    integer, the power of ten that goes with it, and the rest. *)
Definition number (s : list ascii) : option (Z * Z * list ascii) :=
  let '(ip, n1, r1) := digitpart s 0 0 in
  match r1 with
  | c :: r2 =>
      if Ascii.eqb c "." then
        let '(m, n2, r3) := digitpart r2 ip 0 in
        if (n1 + n2 =? 0)%nat then None else Some (m, - Z.of_nat n2, r3)
      else if (n1 =? 0)%nat then None else Some (ip, 0, r1)
  | [] => if (n1 =? 0)%nat then None else Some (ip, 0, r1)
  end.

(** [("e" | "E") [sign] digitpart] or nothing, up to the end. *)
Definition exponent (s : list ascii) : option Z :=
  match s with
  | [] => Some 0
  | c :: r =>
      if Ascii.eqb (Str.lower_ascii c) "e" then
        let '(neg, r') := sign r in
        match digitpart r' 0 0 with
        | (_, O, _) => None
        | (x, _, []) => Some (if neg then - x else x)
        | _ => None
        end
      else None
  end.

Definition float (text : string) : option float :=
  let '(neg, body) := sign (strip (list_ascii_of_string text)) in
  let word := Str.lower (string_of_list_ascii body) in
  if String.eqb word "inf" || String.eqb word "infinity"
  then Some (S754_infinity neg)
  else if String.eqb word "nan" then Some S754_nan
  else
    match number body with
    | Some (m, e10, rest) =>
        match exponent rest with
        | Some x => Some (Float.of_decimal neg m (e10 + x))
        | None => None
        end
    | None => None
    end.

End PyFloat.

(** ** Files in memory

    A small implementation of the libraries, to run the script on
    examples: a file is a report, an MP4 container with its items, an MPEG
    stream with its ID3 frames (if it has a header), or a file that cannot
    be opened. *)

Module Mem.

Inductive file :=
  | Report (stream : csv_stream)
  | Mp4File (items : list (string * list string))
  | Mp3File (frames : option (list (string * string)))
  | Locked.

Definition set_key {V : Type} (k : string) (v : V) (l : list (string * V))
  : list (string * V) :=
  (k, v) :: filter (fun kv => negb (String.eqb (fst kv) k)) l.

#[global] Instance libraries : Libraries := {|
  content := file;
  csv_reader c :=
    match c with
    | Report stream => Ok stream
    | Locked => Raise OSError
    | _ => Raise LibraryError
    end;
  mp4 := list (string * list string);
  MP4 c :=
    match c with
    | Mp4File items => Ok items
    | Locked => Raise OSError
    | _ => Raise LibraryError
    end;
  mp4_setitem := set_key;
  mp4_save items c :=
    match c with
    | Locked => (c, Raise OSError)
    | _ => (Mp4File items, Ok tt)
    end;
  id3 := list (string * string);
  ID3 c :=
    match c with
    | Mp3File (Some frames) => Id3Loaded frames
    | Locked => Id3Fails OSError
    | _ => Id3NoHeader
    end;
  ID3_empty := [];
  id3_add_TXXX := set_key;
  id3_save frames c :=
    match c with
    | Locked => (c, Raise OSError)
    | _ => (Mp3File (Some frames), Ok tt)
    end
|}.

(** A report from its lines, the cells of a line already split at the
    tabs. *)
Definition report (lines : list (list string)) : node :=
  File (Report {| records := lines; failure := None |}).

End Mem.

(** ** The words of the properties *)

Section Notions.

Context `{Libraries}.
Variable py_float : string -> option float.

(** A path the loop of [process_album] hands to [write_gain]. *)
Definition recognized (file_path : string) : bool :=
  in_valid_extensions (Str.lower (Path.suffix file_path)).

Definition album_name (folder_path : string) : string :=
  "[" ++ Path.basename folder_path ++ "]".

(** The number in the cell of a column, when the cell is there and
    [float] reads it. *)
Definition cell_float (d : row) (key : string) : option float :=
  match d !! key with
  | Some (Some s) => py_float s
  | _ => None
  end.

(** The row is the summary of the album: its Filename is "album" in any
    case. *)
Definition is_album (d : row) : bool :=
  match d !! "Filename" with
  | Some (Some n) => String.eqb (Str.lower n) "album"
  | _ => false
  end.

(** The row is a track: it has a Filename, which is not "album". *)
Definition is_track (d : row) : bool :=
  match d !! "Filename" with
  | Some (Some n) => negb (String.eqb (Str.lower n) "album")
  | _ => false
  end.

(** The loudness and the gain of a valid track record. *)
Definition track_record (d : row) : option (float * float) :=
  if is_track d then
    match cell_float d "Loudness (LUFS)", cell_float d "Gain (dB)" with
    | Some l, Some g => Some (l, g)
    | _, _ => None
    end
  else None.

(** The rows of the report at a path ([[]] when it cannot be opened). *)
Definition rows_of (st : state) (csv_path : string) : list row :=
  match open_csv st csv_path with
  | Ok stream => DictReader (records stream)
  | Raise _ => []
  end.

Definition read_errors (csv_path : string) (errs : list log_record) : Prop :=
  Forall (fun r => exists e, r = (ERROR, UnableToReadCsv csv_path e)) errs.

(** What the loop of [get_loudest_track_gain] knows after the rows
    [pre]: no valid track record of [pre] is louder than [max_loudness];
    either no gain is held and [max_loudness] is still -999, or the gain
    is that of a track record of [pre] with loudness [max_loudness],
    above -999, which no earlier track record equals. *)
Definition scan_inv (pre : list row) (s : scan) : Prop :=
  Float.is_nan (max_loudness s) = false /\
  (forall j d l g, pre !! j = Some d -> track_record d = Some (l, g) ->
     Float.ltb (max_loudness s) l = false) /\
  ((target_gain s = None /\ max_loudness s = Float.lit_minus_999) \/
   (exists i d g,
      pre !! i = Some d /\ track_record d = Some (max_loudness s, g) /\
      target_gain s = Some g /\
      Float.ltb Float.lit_minus_999 (max_loudness s) = true /\
      forall j d' l' g', (j < i)%nat -> pre !! j = Some d' ->
        track_record d' = Some (l', g') -> Float.eqb l' (max_loudness s) = false)).

Definition required_columns : list string :=
  ["Filename"; "Loudness (LUFS)"; "Gain (dB)"].

(** The loop of [get_loudest_track_gain] looks up the column at this
    row: Filename at every row, the loudness at a track row, the gain at
    a track row whose loudness [float] reads. *)
Definition needs_column (col : string) (d : row) : Prop :=
  col = "Filename" \/
  (is_track d = true /\
   (col = "Loudness (LUFS)" \/ cell_float d "Loudness (LUFS)" <> None)).

(** The paths of [st'] are those of [st], with the same directories;
    only the contents of files may differ. *)
Definition same_paths (st st' : state) : Prop :=
  forall q,
    match fs st !! q, fs st' !! q with
    | None, None => True
    | Some (Dir names), Some (Dir names') => names = names'
    | Some (File _), Some (File _) => True
    | _, _ => False
    end.

(** What a call of [write_gain] can log. *)
Definition write_errors (recs : list log_record) : Prop :=
  Forall (fun r => exists p e, r = (ERROR, WriteFailed p e)) recs.

(** The row has its three cells: no column is missing and the record
    did not end before them. *)
Definition complete_row (d : row) : Prop :=
  exists n l g,
    d !! "Filename" = Some (Some n) /\
    d !! "Loudness (LUFS)" = Some (Some l) /\
    d !! "Gain (dB)" = Some (Some g).

(** What the tag writer is to do with a file, after its description: the
    gain with two decimals and " dB" goes under the free form key of an
    MP4 container, or into the user text frame of the ID3 tag, a fresh
    tag when the file has none.  The contents left in the file, and the
    exception if a call of the library raised. *)
Definition tag_write (file_path : string) (gain_db : float) (c : content)
  : content * result unit :=
  let value := Float.format_2f gain_db ++ " dB" in
  let ext := Str.lower (Path.suffix file_path) in
  if String.eqb ext ".m4a" then
    match MP4 c with
    | Ok audio => mp4_save (mp4_setitem M4A_TAG_KEY [value] audio) c
    | Raise e => (c, Raise e)
    end
  else if String.eqb ext ".mp3" then
    match ID3 c with
    | Id3Loaded audio => id3_save (id3_add_TXXX MP3_TAG_KEY value audio) c
    | Id3NoHeader => id3_save (id3_add_TXXX MP3_TAG_KEY value ID3_empty) c
    | Id3Fails e => (c, Raise e)
    end
  else (c, Ok tt).

(** [p] lies [k] directories below [root]. *)
Inductive nested (st : state) (root : string) : nat -> string -> Prop :=
  | nested_root : nested st root 0 root
  | nested_sub k p names n :
      nested st root k p ->
      listdir st p = Ok names -> In n names -> is_dir st (Path.join p n) = true ->
      nested st root (S k) (Path.join p n).

End Notions.

(** ** Examples: an album on disk *)

Module Example.

Definition header : list string := ["Filename"; "Loudness (LUFS)"; "Gain (dB)"].

Definition track_a : list string := ["TrackA.mp3"; "-10.0"; "-2.0"].
Definition track_b : list string := ["TrackB.MP3"; "-8.0"; "-3.0"].
Definition summary : list string := ["album"; "-"; "-2.5"].

Definition folder : string := "Music/Album".
Definition csv : string := "Music/Album/replaygain.csv".

(** The album directory with the given lines in its report. *)
Definition album (lines : list (list string)) : state :=
  {| fs :=
       <[csv := Mem.report lines]>
       (<[folder := Dir ["TrackA.mp3"; "TrackB.MP3"; "cover.jpg"; "replaygain.csv"]]>
       (<["Music/Album/TrackA.mp3" := File (Mem.Mp3File None)]>
       (<["Music/Album/TrackB.MP3" := File (Mem.Mp3File (Some []))]>
       (<["Music/Album/cover.jpg" := File Mem.Locked]> ∅))));
     log := [] |}.

Definition minus_3 : float := S754_finite true 6755399441055744 (-51).
Definition minus_2 : float := S754_finite true 4503599627370496 (-51).
Definition minus_2_5 : float := S754_finite true 5629499534213120 (-51).

(** Two tracks and the summary row. *)
Definition complete : state := album [header; track_a; track_b; summary].

(** A track row without its gain cell. *)
Definition short_row : state := album [header; track_a; ["TrackB.MP3"; "-8.0"]; summary].
Definition short_row_removed : state := album [header; track_a; summary].

(** A track row with a gain cell that is no number. *)
Definition bad_cell : state := album [header; track_a; ["TrackB.MP3"; "-8.0"; "n/a"]; summary].

(** A single track, quieter than -999 LUFS. *)
Definition very_quiet : state := album [header; ["TrackA.mp3"; "-1000"; "-2.0"]; summary].


(** No summary row. *)
Definition no_summary : state := album [header; track_a; track_b].

(** No loudness column: only a summary row, or a track row as well. *)
Definition no_loudness_column : state :=
  album [["Filename"; "Gain (dB)"]; ["album"; "-2.5"]].
Definition no_loudness_column_track : state :=
  album [["Filename"; "Gain (dB)"]; ["TrackA.mp3"; "-2.0"]; ["album"; "-2.5"]].

Definition listing : list string :=
  ["TrackA.mp3"; "TrackB.MP3"; "cover.jpg"; "replaygain.csv"].

(** A report that breaks off after its first track. *)
Definition broken : state :=
  {| fs := <[csv := File (Mem.Report {| records := [header; track_a];
                                        failure := Some LibraryError |})]> (fs complete);
     log := [] |}.

(** The complete report in a directory without tracks. *)
Definition no_tracks : state :=
  {| fs := <[folder := Dir ["cover.jpg"; "replaygain.csv"]]> (fs complete); log := [] |}.

End Example.

(** * Properties

    ** The order of the floats *)

Module FloatFacts.
Import Float.

Ltac cmp_cases :=
  repeat match goal with
    | H : context [Z.compare ?a ?b] |- _ => destruct (Z.compare_spec a b); subst
    | |- context [Z.compare ?a ?b] => destruct (Z.compare_spec a b); subst
    | H : context [Pos.compare_cont Eq ?a ?b] |- _ =>
        change (Pos.compare_cont Eq a b) with (Pos.compare a b) in *;
        destruct (Pos.compare_spec a b); subst
    | |- context [Pos.compare_cont Eq ?a ?b] =>
        change (Pos.compare_cont Eq a b) with (Pos.compare a b) in *;
        destruct (Pos.compare_spec a b); subst
    end;
  simpl in *; try discriminate; try reflexivity; try lia.

Lemma ltb_irrefl (x : float) : ltb x x = false.
Proof.
  unfold ltb, SFltb, SFcompare.
  destruct x as [[]|[]| |[] m e]; try reflexivity; cmp_cases.
Qed.

Lemma ltb_asym (x y : float) : ltb x y = true -> ltb y x = false.
Proof.
  unfold ltb, SFltb, SFcompare.
  destruct x as [[]|[]| |[] m e], y as [[]|[]| |[] m' e'];
    simpl; try discriminate; try reflexivity; intros Hlt; cmp_cases.
Qed.

Lemma ltb_trans (x y z : float) :
  ltb x y = true -> ltb y z = true -> ltb x z = true.
Proof.
  unfold ltb, SFltb, SFcompare.
  destruct x as [[]|[]| |[] m e], y as [[]|[]| |[] m' e'], z as [[]|[]| |[] m'' e''];
    simpl; try discriminate; try reflexivity; intros H1 H2; cmp_cases.
Qed.

Lemma ltb_eqb_trans (x y z : float) :
  ltb x y = true -> eqb z y = true -> ltb x z = true.
Proof.
  unfold ltb, eqb, SFltb, SFeqb, SFcompare.
  destruct x as [[]|[]| |[] m e], y as [[]|[]| |[] m' e'], z as [[]|[]| |[] m'' e''];
    simpl; try discriminate; try reflexivity; intros H1 H2; cmp_cases.
Qed.

Lemma ltb_not_nan (x y : float) :
  ltb x y = true -> is_nan x = false /\ is_nan y = false.
Proof.
  unfold ltb, SFltb, SFcompare.
  destruct x as [[]|[]| |[] m e], y as [[]|[]| |[] m' e'];
    simpl; try discriminate; auto.
Qed.

Lemma not_ltb_leb (x y : float) :
  is_nan x = false -> is_nan y = false -> ltb x y = false -> leb y x = true.
Proof.
  unfold ltb, leb, SFltb, SFleb, SFcompare.
  destruct x as [[]|[]| |[] m e], y as [[]|[]| |[] m' e'];
    simpl; try discriminate; try reflexivity; intros _ _ H1; cmp_cases.
Qed.
End FloatFacts.

(** ** Paths *)

Module PathFacts.

Lemma app_nil (s : string) : "" ++ s = s.
Proof. reflexivity. Qed.

Lemma app_cons (c : ascii) (s1 s2 : string) : String c s1 ++ s2 = String c (s1 ++ s2).
Proof. reflexivity. Qed.

Lemma app_snoc (s1 : string) (c : ascii) (s2 : string) :
  s1 ++ String c s2 = (s1 ++ String c "") ++ s2.
Proof.
  induction s1 as [|a s1 IH]; [reflexivity|].
  rewrite !app_cons. now rewrite IH.
Qed.

Lemma length_app (s1 s2 : string) :
  String.length (s1 ++ s2) = (String.length s1 + String.length s2)%nat.
Proof.
  induction s1 as [|c s1 IH]; [reflexivity|].
  rewrite app_cons. simpl. now rewrite IH.
Qed.

Lemma substring_all (s : string) : substring 0 (String.length s) s = s.
Proof. induction s as [|c s IH]; simpl; [reflexivity|]. now rewrite IH. Qed.

Lemma from_app (s1 s2 : string) : Str.from (String.length s1) (s1 ++ s2) = s2.
Proof.
  unfold Str.from. rewrite length_app.
  replace (String.length s1 + String.length s2 - String.length s1)%nat
    with (String.length s2) by lia.
  induction s1 as [|c s1 IH].
  - rewrite app_nil. apply substring_all.
  - rewrite app_cons. simpl. exact IH.
Qed.

Lemma rfind_from_None_shift c s : forall i j,
  Str.rfind_from c s i = None -> Str.rfind_from c s j = None.
Proof.
  induction s as [|a s IH]; intros i j; simpl; [reflexivity|].
  destruct (Str.rfind_from c s (S i)) eqn:Hi; [discriminate|].
  rewrite (IH _ (S j) Hi). now destruct (Ascii.eqb a c).
Qed.

Lemma rfind_from_app c s1 s2 : forall i,
  Str.rfind_from c (s1 ++ s2) i =
  match Str.rfind_from c s2 (i + String.length s1) with
  | Some j => Some j
  | None => Str.rfind_from c s1 i
  end.
Proof.
  induction s1 as [|a s1 IH]; intros i.
  - rewrite app_nil. simpl. rewrite Nat.add_0_r. now destruct (Str.rfind_from c s2 i).
  - rewrite app_cons. simpl. rewrite IH.
    replace (S i + String.length s1)%nat with (i + S (String.length s1))%nat by lia.
    now destruct (Str.rfind_from c s2 _).
Qed.

Lemma rfind_slash_sep (folder name : string) :
  Str.rfind "/" name = None ->
  Str.rfind "/" (folder ++ String "/" name) = Some (String.length folder).
Proof.
  intros Hname. unfold Str.rfind. rewrite rfind_from_app. simpl.
  now rewrite (rfind_from_None_shift _ _ _ _ Hname).
Qed.

(** The name of a joined path is the entry it was joined from. *)
Lemma basename_join (folder name : string) :
  Str.rfind "/" name = None -> Path.basename (Path.join folder name) = name.
Proof.
  intros Hname. unfold Path.join.
  assert (Hsep : Path.basename (folder ++ String "/" name) = name).
  { unfold Path.basename. rewrite (rfind_slash_sep _ _ Hname).
    rewrite app_snoc.
    replace (S (String.length folder)) with (String.length (folder ++ String "/" ""))
      by (rewrite length_app; simpl; lia).
    apply from_app. }
  destruct (String.eqb folder "").
  - unfold Path.basename. now rewrite Hname.
  - unfold Path.ends_with_slash.
    destruct (Str.rfind "/" folder) as [i|] eqn:Hfolder; [|exact Hsep].
    destruct (Nat.eqb_spec (S i) (String.length folder)) as [Hlen|Hlen]; [|exact Hsep].
    unfold Path.basename, Str.rfind. rewrite rfind_from_app.
    rewrite (rfind_from_None_shift _ _ _ _ Hname).
    unfold Str.rfind in Hfolder. rewrite Hfolder, Hlen. apply from_app.
Qed.

Lemma app_inv_head (s a b : string) : s ++ a = s ++ b -> a = b.
Proof.
  induction s as [|c s IH]; [now rewrite !app_nil|].
  rewrite !app_cons. intros Heq. injection Heq as Heq. now apply IH.
Qed.

(** Two entries of a directory have two paths. *)
Lemma join_inj (folder n n' : string) :
  Path.join folder n = Path.join folder n' -> n = n'.
Proof.
  unfold Path.join. destruct (String.eqb folder ""); [auto|].
  destruct (Path.ends_with_slash folder); intros Heq.
  - now apply app_inv_head in Heq.
  - apply app_inv_head in Heq. rewrite !app_cons, !app_nil in Heq.
    now injection Heq.
Qed.

(** [ext in VALID_EXTENSIONS] *)
Lemma valid_extension (ext : string) :
  in_valid_extensions ext = true <-> ext = ".mp3" \/ ext = ".m4a".
Proof.
  unfold in_valid_extensions, VALID_EXTENSIONS. cbn [existsb].
  rewrite orb_false_r, orb_true_iff, !String.eqb_eq. reflexivity.
Qed.

End PathFacts.

(** ** The script *)

Section ScriptFacts.

Context `{Libraries}.
Variable py_float : string -> option float.

Local Abbreviation get_loudest_track_gain := (get_loudest_track_gain py_float).
Local Abbreviation get_album_max_gain := (get_album_max_gain py_float).
Local Abbreviation process_album := (process_album py_float).
Local Abbreviation cell_float := (cell_float py_float).
Local Abbreviation track_record := (track_record py_float).
Local Abbreviation scan_inv := (scan_inv py_float).
Local Abbreviation needs_column := (needs_column py_float).

(** *** [min] *)

Lemma py_min_cases (a b : float) : py_min a b = a \/ py_min a b = b.
Proof. unfold py_min. destruct (Float.ltb b a); auto. Qed.

Lemma py_min_lower_bound (a b : float) :
  Float.ltb a (py_min a b) = false /\ Float.ltb b (py_min a b) = false.
Proof.
  unfold py_min. destruct (Float.ltb b a) eqn:Hba.
  - split; [now apply FloatFacts.ltb_asym | apply FloatFacts.ltb_irrefl].
  - split; [apply FloatFacts.ltb_irrefl | exact Hba].
Qed.

Lemma py_min_le (a b : float) :
  Float.is_nan a = false -> Float.is_nan b = false ->
  Float.leb (py_min a b) a = true /\ Float.leb (py_min a b) b = true.
Proof.
  intros Ha Hb. destruct (py_min_lower_bound a b) as [H1 H2].
  assert (Hm : Float.is_nan (py_min a b) = false)
    by (destruct (py_min_cases a b) as [-> | ->]; assumption).
  split; apply FloatFacts.not_ltb_leb; assumption.
Qed.

(** *** The readers leave the files alone, and log only when they fail *)

Lemma get_loudest_track_gain_fs csv_path st :
  fs (snd (get_loudest_track_gain csv_path st)) = fs st.
Proof.
  unfold get_loudest_track_gain. now destruct (loudest_of_file _ _ _).
Qed.

Lemma get_album_max_gain_fs csv_path st :
  fs (snd (get_album_max_gain csv_path st)) = fs st.
Proof.
  unfold get_album_max_gain. now destruct (album_of_file _ _ _).
Qed.

Lemma get_loudest_track_gain_Some csv_path st g :
  fst (get_loudest_track_gain csv_path st) = Some g ->
  get_loudest_track_gain csv_path st = (Some g, st).
Proof.
  unfold get_loudest_track_gain.
  destruct (loudest_of_file _ _ _); simpl; [congruence | discriminate].
Qed.

Lemma get_album_max_gain_Some csv_path st g :
  fst (get_album_max_gain csv_path st) = Some g ->
  get_album_max_gain csv_path st = (Some g, st).
Proof.
  unfold get_album_max_gain.
  destruct (album_of_file _ _ _); simpl; [congruence | discriminate].
Qed.

(** *** The loop over the listing *)

Lemma album_loop_filter folder_path g dry_run names : forall st,
  foldl (album_file folder_path g dry_run) st names =
  foldl (fun s n => write_gain (Path.join folder_path n) g dry_run s) st
    (List.filter (fun n => recognized (Path.join folder_path n)) names).
Proof.
  induction names as [|n names IH]; intros st; [reflexivity|].
  simpl. rewrite IH. unfold album_file, recognized.
  now destruct (in_valid_extensions _).
Qed.


(** What [process_album] does once both gains are there. *)
Lemma process_album_both folder_path dry_run st l a :
  isfile st (Path.join folder_path DEFAULT_CSV) = true ->
  fst (get_loudest_track_gain (Path.join folder_path DEFAULT_CSV) st) = Some l ->
  fst (get_album_max_gain (Path.join folder_path DEFAULT_CSV) st) = Some a ->
  process_album folder_path dry_run st =
    if within_tolerance (py_min l a) a then
      (logging INFO (NoNeedToWrite (album_name folder_path) l a) st, Ok tt)
    else
      let st' := logging INFO (WillWrite (album_name folder_path) l a (py_min l a)) st in
      match listdir st folder_path with
      | Ok names => (foldl (album_file folder_path (py_min l a) dry_run) st' names, Ok tt)
      | Raise e => (st', Raise e)
      end.
Proof.
  intros Hf Hl Ha. unfold process_album. rewrite Hf. simpl.
  rewrite (get_loudest_track_gain_Some _ _ _ Hl).
  rewrite (get_album_max_gain_Some _ _ _ Ha).
  reflexivity.
Qed.

(** *** Dry runs *)

Lemma album_loop_dry_run folder_path g names : forall st,
  foldl (album_file folder_path g true) st names = st.
Proof.
  induction names as [|n names IH]; intros st; [reflexivity|].
  simpl. rewrite <- (IH st) at 2. f_equal.
  unfold album_file, write_gain. now destruct (negb _).
Qed.

Lemma process_album_dry_run_fs folder_path st :
  fs (fst (process_album folder_path true st)) = fs st.
Proof.
  unfold process_album.
  destruct (isfile st _); simpl; [|reflexivity].
  pose proof (get_loudest_track_gain_fs (Path.join folder_path DEFAULT_CSV) st) as H1.
  destruct (get_loudest_track_gain _ st) as [lg st1]. simpl in H1.
  pose proof (get_album_max_gain_fs (Path.join folder_path DEFAULT_CSV) st1) as H2.
  destruct (get_album_max_gain _ st1) as [ag st2]. simpl in H2.
  destruct lg as [l|], ag as [a|]; simpl; try congruence.
  destruct (within_tolerance _ _); simpl; [congruence|].
  destruct (listdir _ _) as [names|e]; simpl; [|congruence].
  rewrite album_loop_dry_run. simpl. congruence.
Qed.

(** C4. With the dry-run flag set [write_gain] returns the state it was
    given, whatever the file and the gain: no file is touched and nothing
    is logged.  A dry run of [process_album] therefore leaves every file
    as it was, whatever it decides. *)
Theorem write_gain_dry_run :
  (forall file_path gain_db st, write_gain file_path gain_db true st = st) /\
  (forall folder_path st, fs (fst (process_album folder_path true st)) = fs st).
Proof.
  split.
  - intros file_path gain_db st. reflexivity.
  - apply process_album_dry_run_fs.
Qed.

(** *** The gain that is written *)

(** C1. When [get_loudest_track_gain] and [get_album_max_gain] both
    return a gain, [process_album] goes on with one gain [g]: [g] is one
    of the two, neither of the two is smaller than [g], and [g] is below
    or equal to both when neither is a NaN.  That [g] is the gain of the
    log record and of every call of [write_gain]. *)
Theorem process_album_gain_is_min folder_path dry_run st l a :
  isfile st (Path.join folder_path DEFAULT_CSV) = true ->
  fst (get_loudest_track_gain (Path.join folder_path DEFAULT_CSV) st) = Some l ->
  fst (get_album_max_gain (Path.join folder_path DEFAULT_CSV) st) = Some a ->
  exists g,
    (g = l \/ g = a) /\
    Float.ltb l g = false /\ Float.ltb a g = false /\
    (Float.is_nan l = false -> Float.is_nan a = false ->
     Float.leb g l = true /\ Float.leb g a = true) /\
    process_album folder_path dry_run st =
      if within_tolerance g a then
        (logging INFO (NoNeedToWrite (album_name folder_path) l a) st, Ok tt)
      else
        let st' := logging INFO (WillWrite (album_name folder_path) l a g) st in
        match listdir st folder_path with
        | Ok names =>
            (foldl (fun s n => write_gain (Path.join folder_path n) g dry_run s) st'
               (List.filter (fun n => recognized (Path.join folder_path n)) names), Ok tt)
        | Raise e => (st', Raise e)
        end.
Proof.
  intros Hf Hl Ha. exists (py_min l a).
  split; [apply py_min_cases|].
  split; [apply py_min_lower_bound|].
  split; [apply py_min_lower_bound|].
  split; [apply py_min_le|].
  rewrite (process_album_both _ dry_run _ _ _ Hf Hl Ha).
  destruct (within_tolerance _ _); [reflexivity|].
  simpl. destruct (listdir st folder_path); [|reflexivity].
  now rewrite album_loop_filter.
Qed.

(** With both gains at hand and [g] the selected one: when
    [abs(g - album_max_gain) < 0.01] (in binary64 arithmetic) no file is
    changed and the only log record added says that nothing needs to be
    written; otherwise [write_gain] is called with [g] on every entry of
    the directory listing that has a recognized extension, in the order of
    the listing, and on nothing else. *)
Lemma process_album_tolerance_calls folder_path dry_run st l a :
  isfile st (Path.join folder_path DEFAULT_CSV) = true ->
  fst (get_loudest_track_gain (Path.join folder_path DEFAULT_CSV) st) = Some l ->
  fst (get_album_max_gain (Path.join folder_path DEFAULT_CSV) st) = Some a ->
  let g := py_min l a in
  let out := process_album folder_path dry_run st in
  (Float.ltb (Float.abs (Float.sub g a)) Float.lit_0_01 = true ->
     fs (fst out) = fs st /\
     log (fst out) = (log st ++ [(INFO, NoNeedToWrite (album_name folder_path) l a)])%list /\
     snd out = Ok tt) /\
  (Float.ltb (Float.abs (Float.sub g a)) Float.lit_0_01 = false ->
     forall names, listdir st folder_path = Ok names ->
     out =
       (foldl (fun s n => write_gain (Path.join folder_path n) g dry_run s)
          (logging INFO (WillWrite (album_name folder_path) l a g) st)
          (List.filter (fun n => recognized (Path.join folder_path n)) names), Ok tt)).
Proof.
  intros Hf Hl Ha g out. subst out.
  rewrite (process_album_both _ dry_run _ _ _ Hf Hl Ha).
  fold g. unfold within_tolerance. split; intros Htol.
  - rewrite Htol. simpl. auto.
  - intros names Hls. rewrite Htol. simpl. rewrite Hls.
    now rewrite album_loop_filter.
Qed.

(** *** The files that are written *)

Lemma write_m4a_other p gain_str st q :
  p <> q -> fs (fst (write_m4a p gain_str st)) !! q = fs st !! q.
Proof.
  intros Hne. unfold write_m4a.
  destruct (fs st !! p) as [[c|names]|]; simpl; try reflexivity.
  destruct (MP4 c) as [audio|e]; simpl; [|reflexivity].
  destruct (mp4_save _ c) as [c' r]. simpl. now apply lookup_insert_ne.
Qed.

Lemma write_mp3_other p gain_str st q :
  p <> q -> fs (fst (write_mp3 p gain_str st)) !! q = fs st !! q.
Proof.
  intros Hne. unfold write_mp3.
  destruct (fs st !! p) as [[c|names]|]; simpl; try reflexivity.
  destruct (ID3 c) as [audio| |e]; simpl; try reflexivity.
  - destruct (id3_save _ c) as [c' r]. simpl. now apply lookup_insert_ne.
  - destruct (id3_save _ c) as [c' r]. simpl. now apply lookup_insert_ne.
Qed.

Lemma write_gain_other p g dry_run st q :
  p <> q -> fs (write_gain p g dry_run st) !! q = fs st !! q.
Proof.
  intros Hne. unfold write_gain. destruct dry_run; [reflexivity|].
  destruct (String.eqb _ ".m4a").
  - pose proof (write_m4a_other p (Float.format_2f g ++ " dB") st q Hne) as Hq.
    destruct (write_m4a _ _ _) as [st' [u|e]]; simpl in *; exact Hq.
  - destruct (String.eqb _ ".mp3").
    + pose proof (write_mp3_other p (Float.format_2f g ++ " dB") st q Hne) as Hq.
      destruct (write_mp3 _ _ _) as [st' [u|e]]; simpl in *; exact Hq.
    + reflexivity.
Qed.

Lemma write_loop_other folder_path g dry_run q names : forall st,
  (forall n, In n names -> Path.join folder_path n <> q) ->
  fs (foldl (fun s n => write_gain (Path.join folder_path n) g dry_run s) st names) !! q
  = fs st !! q.
Proof.
  induction names as [|n names IH]; intros st Hq; [reflexivity|].
  simpl. rewrite IH by (intros; apply Hq; now right).
  apply write_gain_other, Hq. now left.
Qed.


(** *** The number of workers *)

(** C7, as amended.  The number of workers is the number of processors
    when [os.cpu_count()] knows it and 2 when it answers [None]; with a
    count of at least one it is at least one (and not at least two). *)
Theorem num_threads_fallback (cpu_count : option Z) :
  (forall n, cpu_count = Some n -> 1 <= n) ->
  num_threads cpu_count = match cpu_count with Some n => n | None => 2 end /\
  1 <= num_threads cpu_count.
Proof.
  intros Hpos. destruct cpu_count as [n|]; simpl; [|lia].
  specialize (Hpos n eq_refl).
  destruct (Z.eqb_spec n 0); lia.
Qed.

(** *** Rows *)

(** The column names and "album" as opaque strings: case analyses on the
    cells then compare no literals. *)
Ltac hide_keys :=
  let kF := fresh "kF" in
  let kL := fresh "kL" in
  let kG := fresh "kG" in
  let kA := fresh "kA" in
  set (kF := "Filename") in *;
  set (kL := "Loudness (LUFS)") in *;
  set (kG := "Gain (dB)") in *;
  set (kA := "album") in *;
  clearbody kF kL kG kA.

Ltac open_row :=
  unfold loudest_row, loudness_and_gain, track_record, is_track, is_album,
    cell_float, getitem, cell_lower, float_of_cell in *;
  unfold mbind, result_bind in *;
  hide_keys.

Ltac case_cell d k :=
  destruct (d !! k) as [[?|]|]; cbv beta iota in *; try discriminate.

(** A turn of the loop of [get_loudest_track_gain] that does not raise
    looks at the row only if it is a valid track record. *)
Lemma loudest_row_Ok s d s' :
  loudest_row py_float s d = Ok s' ->
  match track_record d with
  | Some (l, g) =>
      s' = if Float.gtb l (max_loudness s)
           then {| max_loudness := l; target_gain := Some g |} else s
  | None => s' = s
  end.
Proof.
  intros Hrow. open_row.
  case_cell d kF.
  destruct (String.eqb _ kA); cbn [negb] in *; cbv beta iota in *; [congruence|].
  case_cell d kL.
  destruct (py_float _) as [x|]; cbv beta iota in *; [|congruence].
  case_cell d kG.
  destruct (py_float _) as [y|]; cbv beta iota in *; [|congruence].
  destruct (Float.gtb _ _); congruence.
Qed.

Lemma loudest_rows_no_track rows : forall s s',
  Forall (fun d => track_record d = None) rows ->
  loudest_rows py_float s rows = Ok s' -> s' = s.
Proof.
  induction rows as [|d rows IH]; intros s s' Hall Hrun; cbn [loudest_rows] in Hrun.
  - congruence.
  - inversion Hall as [|? ? Hd Hrest]; subst.
    destruct (loudest_row py_float s d) as [s1|e] eqn:Hrow;
      unfold mbind, result_bind in Hrun; [|discriminate].
    apply loudest_row_Ok in Hrow. rewrite Hd in Hrow. subst s1.
    now apply IH.
Qed.

Lemma get_loudest_track_gain_no_track csv_path st :
  Forall (fun d => track_record d = None) (rows_of st csv_path) ->
  fst (get_loudest_track_gain csv_path st) = None.
Proof.
  unfold get_loudest_track_gain, loudest_of_file, rows_of.
  unfold mbind, result_bind.
  destruct (open_csv st csv_path) as [stream|e]; [|reflexivity].
  intros Hall.
  destruct (loudest_rows _ _ _) as [s|e] eqn:Hrun; [|reflexivity].
  apply loudest_rows_no_track in Hrun; [|exact Hall]. subst s.
  now destruct (end_of_stream stream).
Qed.

(** The loop of [get_album_max_gain] returns a gain only at the first
    summary row, and then the number in its gain cell. *)
Lemma album_rows_Some rows g :
  album_rows py_float rows = Ok (Some (Some g)) ->
  exists d, List.find is_album rows = Some d /\ cell_float d "Gain (dB)" = Some g.
Proof.
  induction rows as [|d rows IH]; cbn [album_rows List.find]; [discriminate|].
  intros Hrun.
  destruct (is_album d) eqn:Halb.
  - exists d. split; [reflexivity|]. clear IH. open_row.
    case_cell d kF.
    destruct (String.eqb _ kA); [|discriminate].
    case_cell d kG.
    destruct (py_float _) as [y|]; cbv beta iota in *; congruence.
  - apply IH. clear IH. open_row.
    case_cell d kF.
    destruct (String.eqb _ kA); [discriminate|]. exact Hrun.
Qed.

Lemma get_album_max_gain_Some_inv csv_path st g :
  fst (get_album_max_gain csv_path st) = Some g ->
  exists d, List.find is_album (rows_of st csv_path) = Some d /\
            cell_float d "Gain (dB)" = Some g.
Proof.
  unfold get_album_max_gain, album_of_file, rows_of.
  unfold mbind, result_bind.
  destruct (open_csv st csv_path) as [stream|e]; [|discriminate].
  destruct (album_rows _ _) as [[[g'|]|]|e] eqn:Hrun; cbn [fst]; try discriminate.
  - intros [= ->]. now apply album_rows_Some.
  - destruct (end_of_stream stream); cbn [fst]; discriminate.
Qed.

(** The readers only look at the files. *)
Lemma get_album_max_gain_same_fs csv_path st st' :
  fs st' = fs st ->
  fst (get_album_max_gain csv_path st') = fst (get_album_max_gain csv_path st).
Proof.
  intros Hfs. unfold get_album_max_gain, album_of_file, open_csv. rewrite Hfs.
  now destruct (mbind _ _).
Qed.

Lemma get_loudest_track_gain_log csv_path st :
  exists errs, read_errors csv_path errs /\
    log (snd (get_loudest_track_gain csv_path st)) = (log st ++ errs)%list.
Proof.
  unfold get_loudest_track_gain.
  destruct (loudest_of_file _ _ _) as [g|e]; simpl.
  - exists []. split; [constructor | now rewrite app_nil_r].
  - exists [(ERROR, UnableToReadCsv csv_path e)]. split; [|reflexivity].
    repeat constructor. now exists e.
Qed.

Lemma get_album_max_gain_log csv_path st :
  exists errs, read_errors csv_path errs /\
    log (snd (get_album_max_gain csv_path st)) = (log st ++ errs)%list.
Proof.
  unfold get_album_max_gain.
  destruct (album_of_file _ _ _) as [g|e]; simpl.
  - exists []. split; [constructor | now rewrite app_nil_r].
  - exists [(ERROR, UnableToReadCsv csv_path e)]. split; [|reflexivity].
    repeat constructor. now exists e.
Qed.

(** What [process_album] does when a gain is missing. *)
Lemma process_album_insufficient folder_path dry_run st :
  isfile st (Path.join folder_path DEFAULT_CSV) = true ->
  fst (get_loudest_track_gain (Path.join folder_path DEFAULT_CSV) st) = None \/
  fst (get_album_max_gain (Path.join folder_path DEFAULT_CSV) st) = None ->
  exists errs,
    read_errors (Path.join folder_path DEFAULT_CSV) errs /\
    fs (fst (process_album folder_path dry_run st)) = fs st /\
    log (fst (process_album folder_path dry_run st)) =
      (log st ++ errs ++ [(WARNING, NoValidGain (album_name folder_path))])%list /\
    snd (process_album folder_path dry_run st) = Ok tt.
Proof.
  intros Hf Hnone. unfold process_album. rewrite Hf. simpl.
  set (csv_path := Path.join folder_path DEFAULT_CSV) in *.
  pose proof (get_loudest_track_gain_fs csv_path st) as Hfs1.
  destruct (get_loudest_track_gain_log csv_path st) as (errs1 & He1 & Hlog1).
  destruct (get_loudest_track_gain csv_path st) as [lg st1] eqn:Hl. simpl in *.
  pose proof (get_album_max_gain_fs csv_path st1) as Hfs2.
  pose proof (get_album_max_gain_same_fs csv_path st st1 Hfs1) as Hsame.
  destruct (get_album_max_gain_log csv_path st1) as (errs2 & He2 & Hlog2).
  destruct (get_album_max_gain csv_path st1) as [ag st2] eqn:Ha. simpl in *.
  assert (Hskip : lg = None \/ ag = None).
  { destruct Hnone as [Hn|Hn]; [now left | right; congruence]. }
  exists (errs1 ++ errs2)%list.
  split; [now apply Forall_app|].
  assert (Hlog : log st2 = (log st ++ errs1 ++ errs2)%list)
    by (rewrite Hlog2, Hlog1; now rewrite <- app_assoc).
  destruct lg as [l|], ag as [a|]; simpl;
    try (destruct Hskip; discriminate);
    (split; [congruence|]); (split; [|reflexivity]);
    rewrite Hlog; now rewrite <- !app_assoc.
Qed.

(** C6. When no row of the report is a valid track record, or when the
    report has no summary row or its first summary row has no gain that
    [float] reads, [process_album] changes no file, adds to the log the
    errors of the two readers (if any) and then the warning that the
    album has no valid gain data, and returns. *)
Theorem process_album_no_gain folder_path dry_run st :
  let csv_path := Path.join folder_path DEFAULT_CSV in
  isfile st csv_path = true ->
  Forall (fun d => track_record d = None) (rows_of st csv_path) \/
  List.find is_album (rows_of st csv_path) = None \/
  (exists d, List.find is_album (rows_of st csv_path) = Some d /\
             cell_float d "Gain (dB)" = None) ->
  exists errs,
    Forall (fun r => fst r = ERROR) errs /\
    fs (fst (process_album folder_path dry_run st)) = fs st /\
    log (fst (process_album folder_path dry_run st)) =
      (log st ++ errs ++ [(WARNING, NoValidGain (album_name folder_path))])%list /\
    snd (process_album folder_path dry_run st) = Ok tt.
Proof.
  intros csv_path Hf Hcase.
  destruct (process_album_insufficient folder_path dry_run st Hf) as (errs & He & Hrest).
  - destruct Hcase as [Htracks | Halbum].
    + left. now apply get_loudest_track_gain_no_track.
    + right. fold csv_path.
      destruct (fst (get_album_max_gain csv_path st)) as [g|] eqn:Hg; [|reflexivity].
      apply get_album_max_gain_Some_inv in Hg as (d & Hd & Hgain).
      destruct Halbum as [Hnone | (d' & Hd' & Hgain')]; congruence.
  - exists errs. split; [|exact Hrest].
    eapply Forall_impl; [exact He|]. intros r [e ->]. reflexivity.
Qed.

(** *** The first summary row *)



(** *** Rows that are passed over *)

Lemma loudest_row_skip s d n l g :
  d !! "Filename" = Some (Some n) ->
  d !! "Loudness (LUFS)" = Some (Some l) ->
  d !! "Gain (dB)" = Some (Some g) ->
  py_float l = None \/ py_float g = None ->
  loudest_row py_float s d = Ok s.
Proof.
  intros HF HL HG Hbad. open_row.
  rewrite HF. cbv beta iota.
  destruct (String.eqb _ kA); [reflexivity|].
  rewrite HL. cbv beta iota.
  destruct (py_float l) as [x|]; cbv beta iota; [|reflexivity].
  rewrite HG. cbv beta iota.
  destruct Hbad as [Hbad|Hbad]; [discriminate|]. now rewrite Hbad.
Qed.

Lemma loudest_rows_remove d pre post :
  (forall s, loudest_row py_float s d = Ok s) ->
  forall s, loudest_rows py_float s (pre ++ d :: post) =
            loudest_rows py_float s (pre ++ post).
Proof.
  intros Hskip. induction pre as [|x pre IH]; intros s; cbn [loudest_rows app].
  - now rewrite Hskip.
  - destruct (loudest_row py_float s x) as [s1|e]; unfold mbind, result_bind; [|reflexivity].
    apply IH.
Qed.

Lemma foldl_restval_None (keys : list string) : forall (d : row) k v,
  (forall k' v', d !! k' = Some (Some v') -> False) ->
  foldl (fun d k => <[k := None]> d) d keys !! k = Some (Some v) -> False.
Proof.
  induction keys as [|k0 keys IH]; intros d k v Hd; cbn [foldl].
  - apply Hd.
  - apply IH. intros k' v'. destruct (decide (k0 = k')) as [->|Hne].
    + rewrite lookup_insert_eq. discriminate.
    + rewrite lookup_insert_ne by exact Hne. apply Hd.
Qed.

Lemma dict_of_record_nil header k v :
  dict_of_record header [] !! k = Some (Some v) -> False.
Proof.
  unfold dict_of_record. replace (zip header []) with (@nil (string * string))
    by now destruct header.
  cbn [foldl]. apply foldl_restval_None. intros k' v'. now rewrite lookup_empty.
Qed.

Lemma DictReader_insert header before r after :
  r <> [] ->
  DictReader (header :: before ++ r :: after) =
  (DictReader (header :: before) ++ dict_of_record header r :: DictReader (header :: after))%list.
Proof.
  intros Hr. unfold DictReader.
  rewrite filter_app, filter_cons_True by exact Hr.
  now rewrite fmap_app, fmap_cons.
Qed.

Lemma DictReader_delete header before after :
  DictReader (header :: before ++ after) =
  (DictReader (header :: before) ++ DictReader (header :: after))%list.
Proof.
  unfold DictReader. now rewrite filter_app, fmap_app.
Qed.

(** C5, as amended.  A row whose Filename, loudness and gain cells are
    there and whose loudness or gain cell is a text that [float] rejects
    changes nothing: [get_loudest_track_gain] returns the same gain and
    logs the same as on the report without that row. *)
Theorem unparsable_row_is_skipped csv_path st st' header before r after fail n l g :
  open_csv st csv_path =
    Ok {| records := header :: before ++ r :: after; failure := fail |} ->
  open_csv st' csv_path =
    Ok {| records := header :: before ++ after; failure := fail |} ->
  log st' = log st ->
  dict_of_record header r !! "Filename" = Some (Some n) ->
  dict_of_record header r !! "Loudness (LUFS)" = Some (Some l) ->
  dict_of_record header r !! "Gain (dB)" = Some (Some g) ->
  py_float l = None \/ py_float g = None ->
  fst (get_loudest_track_gain csv_path st) = fst (get_loudest_track_gain csv_path st') /\
  log (snd (get_loudest_track_gain csv_path st)) =
  log (snd (get_loudest_track_gain csv_path st')).
Proof.
  intros Hopen Hopen' Hlog HF HL HG Hbad.
  assert (Hr : r <> []) by (intros ->; now apply dict_of_record_nil in HF).
  assert (Hsame : loudest_of_file py_float st csv_path = loudest_of_file py_float st' csv_path).
  { unfold loudest_of_file. rewrite Hopen, Hopen'.
    unfold mbind at 1 4, result_bind at 1 4. cbn [records].
    rewrite (DictReader_insert _ _ _ _ Hr), DictReader_delete.
    rewrite loudest_rows_remove; [reflexivity|].
    intros s. now apply (loudest_row_skip s _ n l g). }
  unfold get_loudest_track_gain. rewrite Hsame.
  destruct (loudest_of_file py_float st' csv_path); cbn [fst snd logging log];
    split; congruence.
Qed.

(** *** The loudest track *)

Lemma scan_inv_init : scan_inv [] (scan_init).
Proof.
  split; [reflexivity|]. split.
  - intros j d l g Hj. now rewrite lookup_nil in Hj.
  - left. split; reflexivity.
Qed.

Lemma scan_inv_step pre s d s' :
  scan_inv pre s -> loudest_row py_float s d = Ok s' -> scan_inv (pre ++ [d]) s'.
Proof.
  intros (Hnan & Hmax & Hsel) Hrow. apply loudest_row_Ok in Hrow.
  unfold scan_inv.
  destruct (track_record d) as [[l g]|] eqn:Htrack.
  - unfold Float.gtb in Hrow.
    destruct (Float.ltb (max_loudness s) l) eqn:Hlt; subst s'; cbn [max_loudness target_gain].
    + (* the row is louder than all before it *)
      split; [now apply FloatFacts.ltb_not_nan in Hlt|]. split.
      * intros j d' l' g' Hj Ht.
        apply lookup_snoc_Some in Hj as [[_ Hj]|[_ <-]].
        -- destruct (Float.ltb l l') eqn:Hll; [|reflexivity].
           specialize (Hmax j d' l' g' Hj Ht).
           now rewrite (FloatFacts.ltb_trans _ _ _ Hlt Hll) in Hmax.
        -- rewrite Htrack in Ht. injection Ht as <- <-. apply FloatFacts.ltb_irrefl.
      * right. exists (length pre), d, g.
        split; [apply lookup_snoc_Some; now right|].
        split; [exact Htrack|]. split; [reflexivity|]. split.
        -- destruct Hsel as [[_ Heq]|(i & d0 & g0 & _ & _ & _ & Hfloor & _)].
           ++ now rewrite <- Heq.
           ++ exact (FloatFacts.ltb_trans _ _ _ Hfloor Hlt).
        -- intros j d' l' g' Hlen Hj Ht.
           apply lookup_snoc_Some in Hj as [[_ Hj]|[-> _]]; [|lia].
           destruct (Float.eqb l' l) eqn:Heq; [|reflexivity].
           specialize (Hmax j d' l' g' Hj Ht).
           now rewrite (FloatFacts.ltb_eqb_trans _ _ _ Hlt Heq) in Hmax.
    + (* the row is not louder *)
      split; [exact Hnan|]. split.
      * intros j d' l' g' Hj Ht.
        apply lookup_snoc_Some in Hj as [[_ Hj]|[_ <-]]; [now apply (Hmax j d' l' g')|].
        rewrite Htrack in Ht. now injection Ht as <- <-.
      * destruct Hsel as [Hnone|(i & d0 & g0 & Hi & Ht0 & Hg0 & Hfloor & Hfirst)];
          [now left|right].
        exists i, d0, g0. split; [now apply lookup_app_l_Some|].
        repeat (split; [assumption|]).
        intros j d' l' g' Hji Hj Ht.
        apply lookup_snoc_Some in Hj as [[_ Hj]|[-> _]]; [now apply (Hfirst j d' l' g')|].
        apply lookup_lt_Some in Hi. lia.
  - subst s'. split; [exact Hnan|]. split.
    + intros j d' l' g' Hj Ht.
      apply lookup_snoc_Some in Hj as [[_ Hj]|[_ <-]]; [now apply (Hmax j d' l' g')|].
      congruence.
    + destruct Hsel as [Hnone|(i & d0 & g0 & Hi & Ht0 & Hg0 & Hfloor & Hfirst)];
        [now left|right].
      exists i, d0, g0. split; [now apply lookup_app_l_Some|].
      repeat (split; [assumption|]).
      intros j d' l' g' Hji Hj Ht.
      apply lookup_snoc_Some in Hj as [[_ Hj]|[-> _]]; [now apply (Hfirst j d' l' g')|].
      apply lookup_lt_Some in Hi. lia.
Qed.

Lemma scan_inv_rows rows : forall pre s s',
  scan_inv pre s -> loudest_rows py_float s rows = Ok s' -> scan_inv (pre ++ rows) s'.
Proof.
  induction rows as [|d rows IH]; intros pre s s' Hinv Hrun; cbn [loudest_rows] in Hrun.
  - rewrite app_nil_r. congruence.
  - destruct (loudest_row py_float s d) as [s1|e] eqn:Hrow;
      unfold mbind, result_bind in Hrun; [|discriminate].
    replace (pre ++ d :: rows)%list with ((pre ++ [d]) ++ rows)%list
      by now rewrite <- app_assoc.
    eapply IH; [|exact Hrun]. eapply scan_inv_step; eassumption.
Qed.

Lemma get_loudest_track_gain_quiet csv_path st :
  log (snd (get_loudest_track_gain csv_path st)) = log st ->
  exists g, loudest_of_file py_float st csv_path = Ok g /\
            get_loudest_track_gain csv_path st = (g, st).
Proof.
  unfold get_loudest_track_gain.
  destruct (loudest_of_file py_float st csv_path) as [g|e]; cbn [snd logging log].
  - intros _. now exists g.
  - intros Hlog. apply (f_equal length) in Hlog. rewrite length_app in Hlog.
    cbn [length] in Hlog. lia.
Qed.

(** When the read logs nothing and the report has a valid track record
    louder than -999, [get_loudest_track_gain] returns the gain of a
    valid track record: no valid track record is louder than it, and
    none before it is as loud. *)
Lemma loudest_track_gain_quiet_max csv_path st stream :
  open_csv st csv_path = Ok stream ->
  log (snd (get_loudest_track_gain csv_path st)) = log st ->
  (exists d l g, In d (DictReader (records stream)) /\
     track_record d = Some (l, g) /\ Float.gtb l Float.lit_minus_999 = true) ->
  exists i d l g,
    DictReader (records stream) !! i = Some d /\
    track_record d = Some (l, g) /\
    get_loudest_track_gain csv_path st = (Some g, st) /\
    forall j d' l' g',
      DictReader (records stream) !! j = Some d' ->
      track_record d' = Some (l', g') ->
      Float.ltb l l' = false /\
      (Float.is_nan l' = false -> Float.leb l' l = true) /\
      ((j < i)%nat -> Float.eqb l' l = false).
Proof.
  intros Hopen Hquiet (d0 & l0 & g0 & Hd0 & Ht0 & Hl0).
  destruct (get_loudest_track_gain_quiet _ _ Hquiet) as (r & Hfile & Hget).
  unfold loudest_of_file in Hfile. rewrite Hopen in Hfile.
  unfold mbind at 1, result_bind at 1 in Hfile.
  destruct (loudest_rows py_float scan_init (DictReader (records stream)))
    as [s|e] eqn:Hrun; unfold mbind at 1, result_bind at 1 in Hfile; [|discriminate].
  destruct (end_of_stream stream); unfold mbind, result_bind in Hfile; [|discriminate].
  injection Hfile as <-.
  pose proof (scan_inv_rows _ [] _ _ scan_inv_init Hrun) as (Hnan & Hmax & Hsel).
  rewrite app_nil_l in Hmax, Hsel.
  apply list_elem_of_In, list_elem_of_lookup in Hd0 as [j0 Hj0].
  destruct Hsel as [[_ Hfloor]|(i & d & g & Hi & Ht & Hg & _ & Hfirst)].
  - specialize (Hmax j0 d0 l0 g0 Hj0 Ht0). rewrite Hfloor in Hmax.
    unfold Float.gtb in Hl0. congruence.
  - exists i, d, (max_loudness s), g.
    split; [exact Hi|]. split; [exact Ht|]. split; [now rewrite Hget, Hg|].
    intros j d' l' g' Hj Ht'. split; [now apply (Hmax j d' l' g')|]. split.
    + intros Hnan'. apply FloatFacts.not_ltb_leb; [exact Hnan|exact Hnan'|].
      now apply (Hmax j d' l' g').
    + intros Hji. now apply (Hfirst j d' l' g').
Qed.

(** A row with its three cells does not make the loop raise. *)
Lemma loudest_row_complete s d :
  complete_row d -> exists s', loudest_row py_float s d = Ok s'.
Proof.
  unfold complete_row. intros (n & l & g & HF & HL & HG). open_row.
  rewrite HF. cbv beta iota.
  destruct (String.eqb _ kA); [now exists s|].
  rewrite HL. cbv beta iota.
  destruct (py_float l) as [x|]; cbv beta iota; [|now exists s].
  rewrite HG. cbv beta iota.
  destruct (py_float g) as [y|]; cbv beta iota; [|now exists s].
  destruct (Float.gtb _ _); eauto.
Qed.

Lemma loudest_rows_complete rows : forall s,
  Forall complete_row rows -> exists s', loudest_rows py_float s rows = Ok s'.
Proof.
  induction rows as [|d rows IH]; intros s Hall; cbn [loudest_rows]; [now exists s|].
  inversion Hall as [|? ? Hd Hrest]; subst.
  destruct (loudest_row_complete s d Hd) as [s1 ->].
  unfold mbind, result_bind. now apply IH.
Qed.

(** The reports that are read without an error: the file opens, the
    reading does not break off, and every row has its three cells. *)
Lemma complete_report_is_read csv_path st stream :
  open_csv st csv_path = Ok stream ->
  failure stream = None ->
  Forall complete_row (DictReader (records stream)) ->
  snd (get_loudest_track_gain csv_path st) = st.
Proof.
  intros Hopen Hfail Hall.
  unfold get_loudest_track_gain, loudest_of_file. rewrite Hopen.
  unfold mbind at 1, result_bind at 1.
  destruct (loudest_rows_complete _ scan_init Hall) as [s ->].
  unfold mbind, result_bind, end_of_stream. now rewrite Hfail.
Qed.

(** C2, as amended.  A report that opens, is read to its end and has
    its three cells in every row, with a valid track record louder than
    -999 among its rows: [get_loudest_track_gain] returns, without an
    error, the gain of a valid track record; no valid track record is
    louder than it (each is at most as loud, unless its loudness is a
    NaN), and none before it is as loud. *)
Theorem loudest_track_gain_first_max csv_path st stream :
  open_csv st csv_path = Ok stream ->
  failure stream = None ->
  Forall complete_row (DictReader (records stream)) ->
  (exists d l g, In d (DictReader (records stream)) /\
     track_record d = Some (l, g) /\ Float.gtb l Float.lit_minus_999 = true) ->
  exists i d l g,
    DictReader (records stream) !! i = Some d /\
    track_record d = Some (l, g) /\
    get_loudest_track_gain csv_path st = (Some g, st) /\
    forall j d' l' g',
      DictReader (records stream) !! j = Some d' ->
      track_record d' = Some (l', g') ->
      Float.ltb l l' = false /\
      (Float.is_nan l' = false -> Float.leb l' l = true) /\
      ((j < i)%nat -> Float.eqb l' l = false).
Proof.
  intros Hopen Hfail Hall Htrack.
  apply (loudest_track_gain_quiet_max csv_path st stream Hopen); [|exact Htrack].
  now rewrite (complete_report_is_read csv_path st stream Hopen Hfail Hall).
Qed.

(** *** A report without one of its columns *)

Lemma foldl_zip_lookup_ne (kvs : list (string * string)) k : forall (d : row),
  (forall kv, In kv kvs -> fst kv <> k) ->
  foldl (fun d kv => <[fst kv := Some (snd kv)]> d) d kvs !! k = d !! k.
Proof.
  induction kvs as [|kv kvs IH]; intros d Hk; cbn [foldl]; [reflexivity|].
  rewrite IH by (intros; apply Hk; now right).
  apply lookup_insert_ne, Hk. now left.
Qed.

Lemma foldl_restval_lookup_ne (keys : list string) k : forall (d : row),
  ~ In k keys ->
  foldl (fun d k => <[k := None]> d) d keys !! k = d !! k.
Proof.
  induction keys as [|k0 keys IH]; intros d Hk; cbn [foldl]; [reflexivity|].
  rewrite IH by (intros Hin; apply Hk; now right).
  apply lookup_insert_ne. intros ->. apply Hk. now left.
Qed.

Lemma dict_of_record_missing header r col :
  ~ In col header -> dict_of_record header r !! col = None.
Proof.
  intros Hcol. unfold dict_of_record.
  rewrite foldl_restval_lookup_ne.
  - rewrite foldl_zip_lookup_ne; [apply lookup_empty|].
    intros [k v] Hkv Heq. cbn [fst] in Heq. subst k. apply Hcol.
    apply list_elem_of_In. apply list_elem_of_In in Hkv.
    now apply elem_of_zip_l in Hkv.
  - intros Hin. apply Hcol. apply list_elem_of_In.
    apply (subseteq_drop (length r) header). now apply list_elem_of_In.
Qed.

Lemma DictReader_missing header recs col d :
  ~ In col header -> In d (DictReader (header :: recs)) -> d !! col = None.
Proof.
  intros Hcol Hd. unfold DictReader in Hd.
  apply list_elem_of_In, list_elem_of_fmap in Hd as (r & -> & _).
  now apply dict_of_record_missing.
Qed.

Lemma track_record_missing d col :
  In col required_columns -> d !! col = None -> track_record d = None.
Proof.
  unfold required_columns. intros Hcol Hd. open_row.
  destruct Hcol as [<-|[<-|[<-|[]]]].
  - now rewrite Hd.
  - destruct (d !! kF) as [[n|]|]; try reflexivity.
    destruct (negb _); [|reflexivity]. now rewrite Hd.
  - destruct (d !! kF) as [[n|]|]; try reflexivity.
    destruct (negb _); [|reflexivity]. rewrite Hd.
    now destruct (d !! kL) as [[l|]|]; try destruct (py_float l).
Qed.

Lemma loudest_row_missing s d col :
  In col required_columns -> d !! col = None -> needs_column col d ->
  loudest_row py_float s d = Raise KeyError.
Proof.
  unfold required_columns, needs_column. intros Hcol Hd Hneed. open_row.
  destruct Hneed as [->|[Htrack Hneed]]; [now rewrite Hd|].
  destruct (d !! kF) as [[n|]|] eqn:EF; try discriminate. cbv beta iota.
  destruct (String.eqb _ kA); [discriminate|].
  destruct Hneed as [->|Hloud]; [now rewrite Hd|].
  destruct Hcol as [<-|[<-|[<-|[]]]].
  - congruence.
  - now rewrite Hd in Hloud.
  - destruct (d !! kL) as [[l|]|]; try congruence. cbv beta iota.
    destruct (py_float l); [|congruence]. now rewrite Hd.
Qed.

Lemma loudest_rows_raise d rows :
  In d rows -> (forall s, exists e, loudest_row py_float s d = Raise e) ->
  forall s, exists e, loudest_rows py_float s rows = Raise e.
Proof.
  intros Hd Hraise. induction rows as [|x rows IH]; [destruct Hd|].
  intros s. cbn [loudest_rows]. unfold mbind, result_bind.
  destruct Hd as [->|Hd].
  - destruct (Hraise s) as [e ->]. now exists e.
  - destruct (loudest_row py_float s x) as [s1|e]; [now apply IH|now exists e].
Qed.

(** C10, as amended.  When the header of the report has no Filename, no
    loudness or no gain column, [get_loudest_track_gain] returns [None]
    and [process_album] changes no file and ends with the warning that
    the album has no valid gain data.  [get_loudest_track_gain] logs an
    error when a row makes its loop look up the missing column (see
    [needs_column]); a report without such a row is skipped with the
    warning alone. *)
Theorem missing_column_skips_album folder_path dry_run st stream header recs col :
  let csv_path := Path.join folder_path DEFAULT_CSV in
  isfile st csv_path = true ->
  open_csv st csv_path = Ok stream ->
  records stream = header :: recs ->
  In col required_columns -> ~ In col header ->
  fst (get_loudest_track_gain csv_path st) = None /\
  (exists errs,
     Forall (fun r => fst r = ERROR) errs /\
     fs (fst (process_album folder_path dry_run st)) = fs st /\
     log (fst (process_album folder_path dry_run st)) =
       (log st ++ errs ++ [(WARNING, NoValidGain (album_name folder_path))])%list /\
     snd (process_album folder_path dry_run st) = Ok tt) /\
  ((exists d, In d (DictReader (records stream)) /\ needs_column col d) ->
   exists e, snd (get_loudest_track_gain csv_path st) =
             logging ERROR (UnableToReadCsv csv_path e) st).
Proof.
  intros csv_path Hf Hopen Hrec Hcol Hmiss.
  assert (Hrows : rows_of st csv_path = DictReader (header :: recs))
    by (unfold rows_of; now rewrite Hopen, Hrec).
  assert (Hnotrack : Forall (fun d => track_record d = None) (rows_of st csv_path)).
  { rewrite Hrows. apply Forall_forall. intros d Hd.
    apply (track_record_missing d col Hcol).
    apply list_elem_of_In in Hd. now apply (DictReader_missing header recs). }
  pose proof (get_loudest_track_gain_no_track csv_path st Hnotrack) as Hnone.
  split; [exact Hnone|]. split.
  - destruct (process_album_insufficient folder_path dry_run st Hf (or_introl Hnone))
      as (errs & He & Hrest).
    exists errs. split; [|exact Hrest].
    eapply Forall_impl; [exact He|]. intros r [e ->]. reflexivity.
  - intros (d & Hd & Hneed).
    assert (Hraise : exists e,
      loudest_rows py_float scan_init (DictReader (records stream)) = Raise e).
    { apply (loudest_rows_raise d); [exact Hd|]. intros s. exists KeyError.
      apply (loudest_row_missing s d col Hcol); [|exact Hneed].
      rewrite Hrec in Hd. now apply (DictReader_missing header recs). }
    destruct Hraise as [e Hraise].
    exists e. unfold get_loudest_track_gain, loudest_of_file.
    rewrite Hopen. unfold mbind at 1, result_bind at 1.
    rewrite Hraise. reflexivity.
Qed.

(** ** Further properties of the script

    *** The readers *)

(** X1. Both readers only read: the files are the same afterwards; a reader
    that returns a gain leaves the state as it was, and one that returns
    [None] has logged nothing or the one error of a failed read. *)
Theorem readers_only_read csv_path st :
  let loud := get_loudest_track_gain csv_path st in
  let alb := get_album_max_gain csv_path st in
  (fs (snd loud) = fs st /\ fs (snd alb) = fs st) /\
  (is_Some (fst loud) -> snd loud = st) /\
  (is_Some (fst alb) -> snd alb = st) /\
  (snd loud = st \/ exists e, snd loud = logging ERROR (UnableToReadCsv csv_path e) st) /\
  (snd alb = st \/ exists e, snd alb = logging ERROR (UnableToReadCsv csv_path e) st).
Proof.
  cbv zeta. unfold get_loudest_track_gain, get_album_max_gain.
  destruct (loudest_of_file py_float st csv_path) as [g|e];
    destruct (album_of_file py_float st csv_path) as [g'|e']; cbn [fst snd logging fs];
    repeat split; auto; try (intros [x Hx]; discriminate); right; eauto.
Qed.

(** X2. A gain that [get_loudest_track_gain] returns is the gain of a valid
    track record of the report, one louder than -999 (so neither a NaN
    nor minus infinity). *)
Theorem loudest_gain_is_of_a_track csv_path st g :
  fst (get_loudest_track_gain csv_path st) = Some g ->
  exists d l, In d (rows_of st csv_path) /\
              track_record d = Some (l, g) /\
              Float.ltb Float.lit_minus_999 l = true /\ Float.is_nan l = false.
Proof.
  unfold get_loudest_track_gain, loudest_of_file, rows_of.
  unfold mbind, result_bind.
  destruct (open_csv st csv_path) as [stream|e]; [|discriminate].
  destruct (loudest_rows py_float scan_init (DictReader (records stream)))
    as [s|e] eqn:Hrun; [|discriminate].
  destruct (end_of_stream stream); cbn [fst]; [|discriminate].
  intros Hg.
  pose proof (scan_inv_rows _ [] _ _ scan_inv_init Hrun) as (Hnan & _ & Hsel).
  rewrite app_nil_l in Hsel.
  destruct Hsel as [[Hnone _]|(i & d & g0 & Hi & Ht & Hg0 & Hfloor & _)]; [congruence|].
  exists d, (max_loudness s).
  split; [eapply list_elem_of_In, list_elem_of_lookup_2; exact Hi|].
  split; [congruence|]. split; assumption.
Qed.

Lemma loudest_row_album s d :
  is_album d = true -> loudest_row py_float s d = Ok s.
Proof.
  intros Halb. open_row.
  destruct (d !! kF) as [[n|]|]; try discriminate. cbv beta iota.
  now rewrite Halb.
Qed.

(** X3. The summary row is no track: with or without it (wherever it
    stands, whatever its loudness cell holds) [get_loudest_track_gain]
    returns the same gain and logs the same. *)
Theorem summary_row_is_no_track csv_path st st' header before r after fail :
  open_csv st csv_path =
    Ok {| records := header :: before ++ r :: after; failure := fail |} ->
  open_csv st' csv_path =
    Ok {| records := header :: before ++ after; failure := fail |} ->
  log st' = log st ->
  is_album (dict_of_record header r) = true ->
  fst (get_loudest_track_gain csv_path st) = fst (get_loudest_track_gain csv_path st') /\
  log (snd (get_loudest_track_gain csv_path st)) =
  log (snd (get_loudest_track_gain csv_path st')).
Proof.
  intros Hopen Hopen' Hlog Halb.
  assert (Hr : r <> []).
  { intros ->. unfold is_album in Halb.
    destruct (dict_of_record header [] !! "Filename") as [[n|]|] eqn:HF; try discriminate.
    now apply dict_of_record_nil in HF. }
  assert (Hsame : loudest_of_file py_float st csv_path = loudest_of_file py_float st' csv_path).
  { unfold loudest_of_file. rewrite Hopen, Hopen'.
    unfold mbind at 1 4, result_bind at 1 4. cbn [records].
    rewrite (DictReader_insert _ _ _ _ Hr), DictReader_delete.
    rewrite loudest_rows_remove; [reflexivity|].
    intros s. now apply loudest_row_album. }
  unfold get_loudest_track_gain. rewrite Hsame.
  destruct (loudest_of_file py_float st' csv_path); cbn [fst snd logging log];
    split; congruence.
Qed.

(** X4. A gain that [get_album_max_gain] returns is the number in the gain
    cell of the first summary row of the report. *)
Theorem album_gain_is_of_first_summary csv_path st g :
  fst (get_album_max_gain csv_path st) = Some g ->
  exists d, List.find is_album (rows_of st csv_path) = Some d /\
            cell_float d "Gain (dB)" = Some g.
Proof. apply get_album_max_gain_Some_inv. Qed.

(** *** write_gain *)

Lemma same_paths_refl st : same_paths st st.
Proof. intros q. now destruct (fs st !! q) as [[c|names]|]. Qed.

Lemma same_paths_trans st1 st2 st3 :
  same_paths st1 st2 -> same_paths st2 st3 -> same_paths st1 st3.
Proof.
  intros H12 H23 q. specialize (H12 q). specialize (H23 q).
  destruct (fs st1 !! q) as [[c1|n1]|], (fs st2 !! q) as [[c2|n2]|],
    (fs st3 !! q) as [[c3|n3]|]; try tauto; congruence.
Qed.

Lemma same_paths_logging lv m st : same_paths st (logging lv m st).
Proof. exact (same_paths_refl st). Qed.

Lemma same_paths_set_file p c0 c st :
  fs st !! p = Some (File c0) -> same_paths st (set_file p c st).
Proof.
  intros Hp q. unfold set_file. cbn [fs].
  destruct (decide (p = q)) as [<-|Hne].
  - now rewrite lookup_insert_eq, Hp.
  - rewrite lookup_insert_ne by exact Hne. now destruct (fs st !! q) as [[c'|names]|].
Qed.

Lemma write_m4a_shape p gain_str st :
  same_paths st (fst (write_m4a p gain_str st)) /\
  log (fst (write_m4a p gain_str st)) = log st.
Proof.
  unfold write_m4a.
  destruct (fs st !! p) as [[c|names]|] eqn:Hp; cbn [fst];
    try (split; [apply same_paths_refl|reflexivity]).
  destruct (MP4 c) as [audio|e]; cbn [fst];
    try (split; [apply same_paths_refl|reflexivity]).
  destruct (mp4_save _ c) as [c' r]. cbn [fst].
  split; [now apply (same_paths_set_file p c)|reflexivity].
Qed.

Lemma write_mp3_shape p gain_str st :
  same_paths st (fst (write_mp3 p gain_str st)) /\
  log (fst (write_mp3 p gain_str st)) = log st.
Proof.
  unfold write_mp3.
  destruct (fs st !! p) as [[c|names]|] eqn:Hp; cbn [fst];
    try (split; [apply same_paths_refl|reflexivity]).
  destruct (ID3 c) as [audio| |e]; cbv zeta beta iota; cbn [fst];
    try (split; [apply same_paths_refl|reflexivity]);
    destruct (id3_save _ c) as [c' r]; cbn [fst];
    (split; [now apply (same_paths_set_file p c)|reflexivity]).
Qed.

Lemma write_gain_shape p g dry_run st :
  same_paths st (write_gain p g dry_run st) /\
  (log (write_gain p g dry_run st) = log st \/
   exists e, log (write_gain p g dry_run st) = (log st ++ [(ERROR, WriteFailed p e)])%list).
Proof.
  unfold write_gain. destruct dry_run; [split; [apply same_paths_refl|now left]|].
  destruct (String.eqb _ ".m4a").
  - destruct (write_m4a_shape p (Float.format_2f g ++ " dB") st) as [Hs Hl].
    destruct (write_m4a _ _ _) as [st' [u|e]]; cbn [fst logging log fs] in *.
    + split; [exact Hs|now left].
    + split; [exact Hs|right; exists e; now rewrite Hl].
  - destruct (String.eqb _ ".mp3").
    + destruct (write_mp3_shape p (Float.format_2f g ++ " dB") st) as [Hs Hl].
      destruct (write_mp3 _ _ _) as [st' [u|e]]; cbn [fst logging log fs] in *.
      * split; [exact Hs|now left].
      * split; [exact Hs|right; exists e; now rewrite Hl].
    + split; [apply same_paths_refl|now left].
Qed.

(** X6. [write_gain] touches one file at most: every other path holds what it
    held, no path appears or disappears, and no directory changes.  It
    logs nothing or one error, about [file_path]. *)
Theorem write_gain_touches_one_file file_path gain_db dry_run st :
  let st' := write_gain file_path gain_db dry_run st in
  (forall q, q <> file_path -> fs st' !! q = fs st !! q) /\
  same_paths st st' /\
  (log st' = log st \/
   exists e, log st' = (log st ++ [(ERROR, WriteFailed file_path e)])%list).
Proof.
  cbv zeta. split.
  - intros q Hq. apply write_gain_other. congruence.
  - apply write_gain_shape.
Qed.

(** X7. A path whose suffix is neither [.m4a] nor [.mp3] in lower case:
    [write_gain] returns the state it was given, without any error. *)
Theorem write_gain_other_suffix file_path gain_db dry_run st :
  recognized file_path = false ->
  write_gain file_path gain_db dry_run st = st.
Proof.
  unfold recognized. intros Hext.
  assert (H3 : String.eqb (Str.lower (Path.suffix file_path)) ".mp3" = false).
  { destruct (String.eqb _ ".mp3") eqn:E; [|reflexivity].
    apply String.eqb_eq in E.
    assert (in_valid_extensions (Str.lower (Path.suffix file_path)) = true)
      by (apply PathFacts.valid_extension; now left).
    congruence. }
  assert (H4 : String.eqb (Str.lower (Path.suffix file_path)) ".m4a" = false).
  { destruct (String.eqb _ ".m4a") eqn:E; [|reflexivity].
    apply String.eqb_eq in E.
    assert (in_valid_extensions (Str.lower (Path.suffix file_path)) = true)
      by (apply PathFacts.valid_extension; now right).
    congruence. }
  unfold write_gain. destruct dry_run; [reflexivity|].
  now rewrite H4, H3.
Qed.

(** X8. A real run on a recognized path that is no file (nothing there, or
    a directory): the error is logged and nothing else happens. *)
Theorem write_gain_not_a_file file_path gain_db st :
  recognized file_path = true ->
  isfile st file_path = false ->
  write_gain file_path gain_db false st =
    logging ERROR (WriteFailed file_path OSError) st.
Proof.
  unfold recognized, isfile. intros Hext Hfile.
  apply PathFacts.valid_extension in Hext.
  unfold write_gain, write_m4a, write_mp3.
  destruct (String.eqb _ ".m4a") eqn:E4.
  - destruct (fs st !! file_path) as [[c|names]|]; [discriminate|reflexivity|reflexivity].
  - destruct (String.eqb _ ".mp3") eqn:E3.
    + destruct (fs st !! file_path) as [[c|names]|]; [discriminate|reflexivity|reflexivity].
    + apply String.eqb_neq in E3, E4. destruct Hext; contradiction.
Qed.

(** *** process_album *)

Lemma state_eta (st : state) : st = {| fs := fs st; log := log st |}.
Proof. now destruct st. Qed.

Lemma album_loop_shape folder_path g dry_run names : forall st,
  same_paths st (foldl (album_file folder_path g dry_run) st names) /\
  exists errs, write_errors errs /\
    log (foldl (album_file folder_path g dry_run) st names) = (log st ++ errs)%list.
Proof.
  induction names as [|n names IH]; intros st; cbn [foldl].
  - split; [apply same_paths_refl|]. exists []. split; [constructor|now rewrite app_nil_r].
  - destruct (IH (album_file folder_path g dry_run st n)) as (Hs & errs & He & Hl).
    assert (Hone : same_paths st (album_file folder_path g dry_run st n) /\
      exists errs1, write_errors errs1 /\
        log (album_file folder_path g dry_run st n) = (log st ++ errs1)%list).
    { unfold album_file. destruct (negb _).
      - split; [apply same_paths_refl|]. exists []. split; [constructor|now rewrite app_nil_r].
      - destruct (write_gain_shape (Path.join folder_path n) g dry_run st) as [Hs1 [Hl1|[e Hl1]]].
        + split; [exact Hs1|]. exists []. split; [constructor|now rewrite app_nil_r].
        + split; [exact Hs1|]. exists [(ERROR, WriteFailed (Path.join folder_path n) e)].
          split; [|exact Hl1]. repeat constructor. eauto. }
    destruct Hone as (Hs1 & errs1 & He1 & Hl1).
    split; [exact (same_paths_trans _ _ _ Hs1 Hs)|].
    exists (errs1 ++ errs)%list. split; [now apply Forall_app|].
    rewrite Hl, Hl1. now rewrite <- app_assoc.
Qed.

Lemma album_loop_other folder_path g dry_run names st q :
  (forall n, In n names -> recognized (Path.join folder_path n) = true ->
     Path.join folder_path n <> q) ->
  fs (foldl (album_file folder_path g dry_run) st names) !! q = fs st !! q.
Proof.
  intros Hq. rewrite album_loop_filter. apply write_loop_other.
  intros n Hn. apply filter_In in Hn as [Hn Hrec]. now apply Hq.
Qed.

(** The ways [process_album] ends: after its log records and no write,
    or after the loop over the listing. *)
Lemma process_album_cases folder_path dry_run st :
  let out := process_album folder_path dry_run st in
  (exists recs, recs <> [] /\
     fst out = {| fs := fs st; log := (log st ++ recs)%list |} /\
     (snd out = Ok tt \/ exists e, snd out = Raise e /\ listdir st folder_path = Raise e)) \/
  (exists recs g names, recs <> [] /\
     listdir st folder_path = Ok names /\
     fst out = foldl (album_file folder_path g dry_run)
                 {| fs := fs st; log := (log st ++ recs)%list |} names /\
     snd out = Ok tt).
Proof.
  cbv zeta. unfold process_album.
  destruct (isfile st _); cbn [negb].
  2:{ left. exists [(WARNING, MissingCsv ("[" ++ Path.basename folder_path ++ "]"))].
      split; [discriminate|]. split; [reflexivity|]. now left. }
  set (csv_path := Path.join folder_path DEFAULT_CSV).
  set (name := "[" ++ Path.basename folder_path ++ "]").
  pose proof (get_loudest_track_gain_fs csv_path st) as Hfs1.
  destruct (get_loudest_track_gain_log csv_path st) as (errs1 & _ & Hlog1).
  destruct (get_loudest_track_gain csv_path st) as [lg st1]. cbn [fst snd] in *.
  pose proof (get_album_max_gain_fs csv_path st1) as Hfs2.
  destruct (get_album_max_gain_log csv_path st1) as (errs2 & _ & Hlog2).
  destruct (get_album_max_gain csv_path st1) as [ag st2]. cbn [fst snd] in *.
  assert (Hst2 : forall r, logging (fst r) (snd r) st2 =
            {| fs := fs st; log := (log st ++ (errs1 ++ errs2 ++ [r]))%list |}).
  { intros [lv m]. unfold logging. cbn [fst snd].
    rewrite Hfs2, Hfs1, Hlog2, Hlog1. now rewrite <- !app_assoc. }
  assert (Hne : forall r : log_record, (errs1 ++ errs2 ++ [r])%list <> []).
  { intros r Heq. apply (f_equal length) in Heq.
    rewrite !length_app in Heq. cbn [length] in Heq. lia. }
  assert (Hquiet : forall lv m,
    exists recs, recs <> [] /\
      logging lv m st2 = {| fs := fs st; log := (log st ++ recs)%list |}).
  { intros lv m. exists (errs1 ++ errs2 ++ [(lv, m)])%list.
    split; [apply Hne|]. exact (Hst2 (lv, m)). }
  destruct lg as [l|], ag as [a|].
  2,3,4: left; destruct (Hquiet WARNING (NoValidGain name)) as (recs & Hr & Heq);
    exists recs; cbn [fst snd]; (split; [exact Hr|]); (split; [exact Heq|now left]).
  destruct (within_tolerance _ _).
  - left. destruct (Hquiet INFO (NoNeedToWrite name l a)) as (recs & Hr & Heq).
    exists recs. cbn [fst snd]. split; [exact Hr|]. split; [exact Heq|now left].
  - destruct (Hquiet INFO (WillWrite name l a (py_min l a))) as (recs & Hr & Heq).
    assert (Hls : listdir (logging INFO (WillWrite name l a (py_min l a)) st2) folder_path
                  = listdir st folder_path)
      by (unfold listdir, logging; cbn [fs]; now rewrite Hfs2, Hfs1).
    rewrite Hls.
    destruct (listdir st folder_path) as [names|e] eqn:Hdir.
    + right. exists recs, (py_min l a), names. cbn [fst snd].
      split; [exact Hr|]. split; [reflexivity|]. split; [now rewrite Heq|reflexivity].
    + left. exists recs. cbn [fst snd]. split; [exact Hr|]. split; [exact Heq|].
      right. now exists e.
Qed.

(** X9. [process_album] only adds to the log, and adds at least one record:
    every album leaves a trace.  It returns normally unless the
    directory cannot be listed. *)
Theorem process_album_logs folder_path dry_run st :
  let out := process_album folder_path dry_run st in
  (exists recs, recs <> [] /\ log (fst out) = (log st ++ recs)%list) /\
  (snd out = Ok tt \/
   exists e, snd out = Raise e /\ listdir st folder_path = Raise e).
Proof.
  cbv zeta.
  destruct (process_album_cases folder_path dry_run st)
    as [(recs & Hne & Hout & Hret)|(recs & g & names & Hne & Hls & Hout & Hret)].
  - split; [|exact Hret]. exists recs. split; [exact Hne|]. now rewrite Hout.
  - split; [|now left].
    destruct (album_loop_shape folder_path g dry_run names
                {| fs := fs st; log := (log st ++ recs)%list |}) as (_ & errs & _ & Hl).
    exists (recs ++ errs)%list. split.
    + intros Heq. apply app_eq_nil in Heq as [-> _]. now apply Hne.
    + rewrite Hout, Hl. cbn [log]. now rewrite <- app_assoc.
Qed.

(** X10. [process_album] changes nothing but recognized files of the listing
    of its directory: no path appears or disappears, no directory
    changes, and a path that is not a recognized entry of the listing
    holds what it held. *)
Theorem process_album_frame folder_path dry_run st :
  let out := process_album folder_path dry_run st in
  same_paths st (fst out) /\
  forall q,
    (forall names n, listdir st folder_path = Ok names -> In n names ->
       recognized (Path.join folder_path n) = true -> Path.join folder_path n <> q) ->
    fs (fst out) !! q = fs st !! q.
Proof.
  cbv zeta.
  destruct (process_album_cases folder_path dry_run st)
    as [(recs & Hne & Hout & Hret)|(recs & g & names & Hne & Hls & Hout & Hret)];
    rewrite Hout.
  - split; [exact (same_paths_refl st)|]. reflexivity.
  - split.
    + eapply same_paths_trans; [|apply album_loop_shape]. exact (same_paths_refl st).
    + intros q Hq. rewrite album_loop_other; [reflexivity|].
      intros n Hn Hrec. exact (Hq names n Hls Hn Hrec).
Qed.

(** X11. The suffix test of [process_album] looks at the entry alone: the
    path of the directory, whatever dots it has, plays no part. *)
Theorem recognized_by_name folder_path name :
  Str.rfind "/" name = None ->
  recognized (Path.join folder_path name) =
  in_valid_extensions (Str.lower (Path.suffix_of_name name)).
Proof.
  intros Hname. unfold recognized, Path.suffix.
  now rewrite (PathFacts.basename_join folder_path name Hname).
Qed.

Lemma report_not_recognized folder_path :
  recognized (Path.join folder_path DEFAULT_CSV) = false.
Proof.
  unfold recognized, Path.suffix.
  rewrite PathFacts.basename_join by (vm_compute; reflexivity).
  vm_compute. reflexivity.
Qed.

Lemma get_loudest_track_gain_same_file csv_path st st' :
  fs st' !! csv_path = fs st !! csv_path ->
  fst (get_loudest_track_gain csv_path st') = fst (get_loudest_track_gain csv_path st).
Proof.
  intros Hfs. unfold get_loudest_track_gain, loudest_of_file, open_csv. rewrite Hfs.
  now destruct (mbind _ _).
Qed.

Lemma get_album_max_gain_same_file csv_path st st' :
  fs st' !! csv_path = fs st !! csv_path ->
  fst (get_album_max_gain csv_path st') = fst (get_album_max_gain csv_path st).
Proof.
  intros Hfs. unfold get_album_max_gain, album_of_file, open_csv. rewrite Hfs.
  now destruct (mbind _ _).
Qed.

(** X12. [process_album] never writes to the report: the file is the same
    afterwards, and both readers return from it what they returned
    before, so that a second run takes the same decision. *)
Theorem process_album_keeps_report folder_path dry_run st :
  let csv_path := Path.join folder_path DEFAULT_CSV in
  let st' := fst (process_album folder_path dry_run st) in
  fs st' !! csv_path = fs st !! csv_path /\
  fst (get_loudest_track_gain csv_path st') = fst (get_loudest_track_gain csv_path st) /\
  fst (get_album_max_gain csv_path st') = fst (get_album_max_gain csv_path st).
Proof.
  cbv zeta.
  assert (Hsame : fs (fst (process_album folder_path dry_run st))
                    !! Path.join folder_path DEFAULT_CSV
                  = fs st !! Path.join folder_path DEFAULT_CSV).
  { destruct (process_album_cases folder_path dry_run st)
      as [(recs & _ & Hout & _)|(recs & g & names & _ & _ & Hout & _)]; rewrite Hout.
    - reflexivity.
    - rewrite album_loop_other; [reflexivity|].
      intros n _ Hrec Heq. rewrite Heq, report_not_recognized in Hrec. discriminate. }
  split; [exact Hsame|]. split.
  - now apply get_loudest_track_gain_same_file.
  - now apply get_album_max_gain_same_file.
Qed.

(** X13. A dry run shows what the real run does: both return the same, and
    the log of the real run is the log of the dry run followed by the
    errors of the writes that failed. *)
Theorem dry_run_previews folder_path st :
  let dry := process_album folder_path true st in
  let real := process_album folder_path false st in
  snd real = snd dry /\
  exists errs, write_errors errs /\ log (fst real) = (log (fst dry) ++ errs)%list.
Proof.
  cbv zeta. unfold process_album.
  destruct (isfile st _); cbn [negb].
  2:{ split; [reflexivity|]. exists []. split; [constructor|now rewrite app_nil_r]. }
  destruct (get_loudest_track_gain _ st) as [lg st1].
  destruct (get_album_max_gain _ st1) as [ag st2].
  destruct lg as [l|], ag as [a|];
    try (split; [reflexivity|]; exists []; split; [constructor|now rewrite app_nil_r]).
  destruct (within_tolerance _ _);
    try (split; [reflexivity|]; exists []; split; [constructor|now rewrite app_nil_r]).
  destruct (listdir _ folder_path) as [names|e];
    try (split; [reflexivity|]; exists []; split; [constructor|now rewrite app_nil_r]).
  split; [reflexivity|]. cbn [fst]. rewrite album_loop_dry_run.
  destruct (album_loop_shape folder_path (py_min l a) false names
    (logging INFO (WillWrite ("[" ++ Path.basename folder_path ++ "]") l a (py_min l a)) st2))
    as (_ & errs & He & Hl).
  exists errs. split; [exact He|exact Hl].
Qed.

(** *** The gain that is written *)

Lemma sub_diag (a : float) :
  (forall s, a <> S754_infinity s) -> Float.is_nan a = false ->
  Float.sub a a = S754_zero false.
Proof.
  intros Hinf Hnan. destruct a as [[]|s| |[] m e]; try reflexivity;
    try discriminate; try (now destruct (Hinf s));
    unfold Float.sub, SFsub; cbv beta iota zeta; now rewrite Z.sub_diag.
Qed.

(** X14. When the album gain is not infinite and the album is written, the
    gain that is written is the gain of the loudest track, and the album
    gain is not below it: an album gain that is the smaller one lies
    within the tolerance of itself, and nothing is written. *)
Theorem written_gain_is_loudest (loudest_gain album_max_gain : float) :
  (forall s, album_max_gain <> S754_infinity s) ->
  within_tolerance (py_min loudest_gain album_max_gain) album_max_gain = false ->
  py_min loudest_gain album_max_gain = loudest_gain /\
  Float.ltb album_max_gain loudest_gain = false.
Proof.
  intros Hinf. unfold py_min.
  destruct (Float.ltb album_max_gain loudest_gain) eqn:Hlt; [|auto].
  apply FloatFacts.ltb_not_nan in Hlt as [Hnan _].
  unfold within_tolerance. rewrite (sub_diag _ Hinf Hnan).
  vm_compute. discriminate.
Qed.

(** *** main: the album directories *)

Lemma nested_below st root n names k p :
  listdir st root = Ok names -> In n names -> is_dir st (Path.join root n) = true ->
  nested st (Path.join root n) k p -> nested st root (S k) p.
Proof.
  intros Hls Hn Hdir Hnest. induction Hnest as [|k p names' n' _ IH Hls' Hn' Hdir'].
  - eapply nested_sub; eauto. constructor.
  - eapply nested_sub; eauto.
Qed.

Lemma walk_sound depth st : forall top dirpath dirnames filenames,
  In (dirpath, dirnames, filenames) (walk depth st top) ->
  exists k names,
    (k < depth)%nat /\ nested st top k dirpath /\
    listdir st dirpath = Ok names /\
    filenames = List.filter (fun n => negb (is_dir st (Path.join dirpath n))) names.
Proof.
  induction depth as [|depth IH]; intros top dirpath dirnames filenames Hin;
    cbn [walk] in Hin; [destruct Hin|].
  destruct (listdir st top) as [names|e] eqn:Hls; [|destruct Hin].
  destruct Hin as [Heq|Hin].
  - injection Heq as <- <- <-. exists 0%nat, names.
    split; [lia|]. split; [constructor|]. split; [exact Hls|reflexivity].
  - apply in_flat_map in Hin as (d & Hd & Hin).
    apply filter_In in Hd as [Hd Hdir].
    destruct (IH _ _ _ _ Hin) as (k & names' & Hk & Hnest & Hls' & Hfiles).
    exists (S k), names'. split; [lia|]. split; [|split; assumption].
    eapply nested_below; eauto.
Qed.

Lemma walk_deeper depth st : forall top, incl (walk depth st top) (walk (S depth) st top).
Proof.
  induction depth as [|depth IH]; intros top e He; [destruct He|].
  cbn [walk] in He. change (walk (S (S depth)) st top) with
    (match listdir st top with
     | Raise _ => []
     | Ok names =>
         let dirs := List.filter (fun n => is_dir st (Path.join top n)) names in
         let nondirs := List.filter (fun n => negb (is_dir st (Path.join top n))) names in
         (top, dirs, nondirs)
           :: flat_map (fun d => walk (S depth) st (Path.join top d)) dirs
     end).
  destruct (listdir st top) as [names|err]; [|destruct He].
  destruct He as [<-|He]; [now left|right].
  apply in_flat_map in He as (d & Hd & He). apply in_flat_map.
  exists d. split; [exact Hd|]. now apply IH.
Qed.

Lemma walk_deep d1 d2 st top : (d1 <= d2)%nat -> incl (walk d1 st top) (walk d2 st top).
Proof.
  induction 1 as [|d2 _ IH]; [apply incl_refl|].
  eapply incl_tran; [exact IH|apply walk_deeper].
Qed.

Lemma walk_nested st root k p :
  nested st root k p -> forall d, incl (walk d st p) (walk (k + d) st root).
Proof.
  induction 1 as [|k p names n _ IH Hls Hn Hdir]; intros d; [apply incl_refl|].
  intros e He. replace (S k + d)%nat with (k + S d)%nat by lia.
  apply IH. cbn [walk]. rewrite Hls. right.
  apply in_flat_map. exists n. split; [|exact He].
  apply filter_In. now split.
Qed.

Lemma album_folders_of_In walked p :
  In p (album_folders_of walked) <->
  exists dirnames filenames,
    In (p, dirnames, filenames) walked /\
    existsb (String.eqb DEFAULT_CSV) filenames = true.
Proof.
  induction walked as [|[[dp ds] fns] walked IH]; cbn [album_folders_of].
  - split; [intros []|intros (? & ? & [] & _)].
  - destruct (existsb (String.eqb DEFAULT_CSV) fns) eqn:Hcsv.
    + split.
      * intros [<-|Hin]; [exists ds, fns; split; [now left|exact Hcsv]|].
        apply IH in Hin as (ds' & fns' & Hin & Hex). exists ds', fns'. split; [now right|exact Hex].
      * intros (ds' & fns' & [Heq|Hin] & Hex).
        -- injection Heq as -> _ _. now left.
        -- right. apply IH. eauto.
    + rewrite IH. split.
      * intros (ds' & fns' & Hin & Hex). exists ds', fns'. split; [now right|exact Hex].
      * intros (ds' & fns' & [Heq|Hin] & Hex); [|eauto].
        injection Heq as _ _ <-. congruence.
Qed.

Lemma csv_among_files st p names :
  existsb (String.eqb DEFAULT_CSV)
    (List.filter (fun n => negb (is_dir st (Path.join p n))) names) = true <->
  In DEFAULT_CSV names /\ is_dir st (Path.join p DEFAULT_CSV) = false.
Proof.
  rewrite existsb_exists. split.
  - intros (n & Hn & Heq). apply String.eqb_eq in Heq. subst n.
    apply filter_In in Hn as [Hn Hdir]. split; [exact Hn|].
    now apply negb_true_iff in Hdir.
  - intros [Hn Hdir]. exists DEFAULT_CSV. split; [|apply String.eqb_refl].
    apply filter_In. split; [exact Hn|]. now rewrite Hdir.
Qed.

(** X16. The directories [main] hands to [process_album] are the directories
    at or below the root (as deep as the walk goes) whose listing has
    the entry [replaygain.csv] and that entry is no directory; whether
    such a directory has subdirectories or lies inside another album
    plays no part. *)
Theorem album_folders_spec depth st root_dir p :
  In p (album_folders depth st root_dir) <->
  exists k names,
    (k < depth)%nat /\ nested st root_dir k p /\
    listdir st p = Ok names /\ In DEFAULT_CSV names /\
    is_dir st (Path.join p DEFAULT_CSV) = false.
Proof.
  unfold album_folders. rewrite album_folders_of_In. split.
  - intros (ds & fns & Hin & Hcsv).
    destruct (walk_sound _ _ _ _ _ _ Hin) as (k & names & Hk & Hnest & Hls & ->).
    apply csv_among_files in Hcsv as [Hn Hdir].
    exists k, names. auto.
  - intros (k & names & Hk & Hnest & Hls & Hn & Hdir).
    exists (List.filter (fun n => is_dir st (Path.join p n)) names),
           (List.filter (fun n => negb (is_dir st (Path.join p n))) names).
    split; [|now apply csv_among_files].
    apply (walk_deep (k + 1) depth); [lia|].
    apply (walk_nested _ _ _ _ Hnest 1). cbn [walk]. rewrite Hls. now left.
Qed.

(** *** Reports that break off, directories without tracks *)

(** X5. [get_loudest_track_gain] reads the report to its end: when the
    reading breaks off, after however many good rows, it returns [None]
    and logs the error.  ([get_album_max_gain] returns at the first
    summary row and does not see what comes after it.) *)
Theorem broken_report_has_no_loudest_gain csv_path st stream e :
  open_csv st csv_path = Ok stream ->
  failure stream = Some e ->
  exists e', get_loudest_track_gain csv_path st =
             (None, logging ERROR (UnableToReadCsv csv_path e') st).
Proof.
  intros Hopen Hfail. unfold get_loudest_track_gain, loudest_of_file.
  rewrite Hopen. unfold mbind at 1, result_bind at 1.
  destruct (loudest_rows _ _ _) as [s|e1]; unfold mbind, result_bind.
  - unfold end_of_stream. rewrite Hfail. now exists e.
  - now exists e1.
Qed.

(** X15. A directory with no recognized entry in its listing: the decision
    is logged, [write_gain] is not called, and nothing else happens. *)
Theorem process_album_nothing_to_write folder_path dry_run st l a names :
  isfile st (Path.join folder_path DEFAULT_CSV) = true ->
  fst (get_loudest_track_gain (Path.join folder_path DEFAULT_CSV) st) = Some l ->
  fst (get_album_max_gain (Path.join folder_path DEFAULT_CSV) st) = Some a ->
  within_tolerance (py_min l a) a = false ->
  listdir st folder_path = Ok names ->
  (forall n, In n names -> recognized (Path.join folder_path n) = false) ->
  process_album folder_path dry_run st =
    (logging INFO (WillWrite (album_name folder_path) l a (py_min l a)) st, Ok tt).
Proof.
  intros Hf Hl Ha Htol Hls Hnone.
  rewrite (process_album_both _ dry_run _ _ _ Hf Hl Ha), Htol. cbv zeta. rewrite Hls.
  rewrite album_loop_filter.
  replace (List.filter (fun n => recognized (Path.join folder_path n)) names)
    with (@nil string); [reflexivity|].
  clear Hls. induction names as [|n names IH]; [reflexivity|].
  cbn [List.filter]. rewrite (Hnone n (or_introl eq_refl)).
  apply IH. intros n' Hn'. apply Hnone. now right.
Qed.

(** *** The tags that are stored *)

Lemma write_gain_content p g st c :
  fs st !! p = Some (File c) ->
  fs (write_gain p g false st) !! p = Some (File (fst (tag_write p g c))) /\
  forall e, snd (tag_write p g c) = Raise e ->
            In (ERROR, WriteFailed p e) (log (write_gain p g false st)).
Proof.
  intros Hp. unfold write_gain, tag_write, write_m4a, write_mp3. rewrite Hp.
  destruct (String.eqb _ ".m4a").
  - destruct (MP4 c) as [audio|e0].
    + destruct (mp4_save _ c) as [c' [u|e0]]; cbn [fst snd set_file logging fs log].
      * split; [apply lookup_insert_eq|discriminate].
      * split; [apply lookup_insert_eq|]. intros e [= <-].
        apply in_or_app. right. now left.
    + cbn [fst snd logging fs log]. split; [exact Hp|]. intros e [= <-].
      apply in_or_app. right. now left.
  - destruct (String.eqb _ ".mp3"); [|split; [exact Hp|discriminate]].
    destruct (ID3 c) as [audio| |e0]; cbv zeta beta iota.
    + destruct (id3_save _ c) as [c' [u|e0]]; cbn [fst snd set_file logging fs log].
      * split; [apply lookup_insert_eq|discriminate].
      * split; [apply lookup_insert_eq|]. intros e [= <-].
        apply in_or_app. right. now left.
    + destruct (id3_save _ c) as [c' [u|e0]]; cbn [fst snd set_file logging fs log].
      * split; [apply lookup_insert_eq|discriminate].
      * split; [apply lookup_insert_eq|]. intros e [= <-].
        apply in_or_app. right. now left.
    + cbn [fst snd logging fs log]. split; [exact Hp|]. intros e [= <-].
      apply in_or_app. right. now left.
Qed.

Lemma write_loop_log folder_path g dry_run names : forall st,
  exists errs,
    log (foldl (fun s n => write_gain (Path.join folder_path n) g dry_run s) st names)
    = (log st ++ errs)%list.
Proof.
  induction names as [|n names IH]; intros st; cbn [foldl].
  - exists []. now rewrite app_nil_r.
  - destruct (IH (write_gain (Path.join folder_path n) g dry_run st)) as [errs Hl].
    destruct (write_gain_shape (Path.join folder_path n) g dry_run st) as [_ [Hl1|[e Hl1]]];
      rewrite Hl, Hl1; [now exists errs|].
    eexists. now rewrite <- app_assoc.
Qed.

(** A real run of the loop over distinct entries: each entry that is a
    file holds what the tag writer leaves in it, and the failure of a
    library call on it is in the log. *)
Lemma write_loop_content folder_path g names :
  NoDup names ->
  forall st n c,
    In n names -> fs st !! Path.join folder_path n = Some (File c) ->
    let st' := foldl (fun s n => write_gain (Path.join folder_path n) g false s) st names in
    fs st' !! Path.join folder_path n =
      Some (File (fst (tag_write (Path.join folder_path n) g c))) /\
    forall e, snd (tag_write (Path.join folder_path n) g c) = Raise e ->
              In (ERROR, WriteFailed (Path.join folder_path n) e) (log st').
Proof.
  induction 1 as [|w names Hw Hnd IH]; intros st n c Hn Hfile; [destruct Hn|].
  cbv zeta. cbn [foldl].
  destruct Hn as [<-|Hn].
  - destruct (write_gain_content _ g st c Hfile) as [Hc He].
    split.
    + rewrite write_loop_other; [exact Hc|].
      intros n' Hn' Heq. apply PathFacts.join_inj in Heq. subst n'.
      now apply Hw, list_elem_of_In.
    + intros e Hr.
      destruct (write_loop_log folder_path g false names
                  (write_gain (Path.join folder_path w) g false st)) as [errs ->].
      apply in_or_app. left. now apply He.
  - apply IH; [exact Hn|].
    rewrite write_gain_other; [exact Hfile|].
    intros Heq. apply PathFacts.join_inj in Heq. subst w.
    now apply Hw, list_elem_of_In.
Qed.

(** C3, as amended.  With both gains at hand and [g] the selected one:
    when [abs(g - album_max_gain) < 0.01] (in binary64 arithmetic) no
    file is changed and the only log record added says that nothing
    needs to be written.  Otherwise, in a run that is no dry run, every
    entry of the listing with a recognized extension that is a file
    holds afterwards what the tag writer leaves in it: [g] with two
    decimals and " dB" under the tag key of its format; when a call of
    the tag library raised on it, the error is in the log. *)
Theorem process_album_tolerance folder_path dry_run st l a :
  isfile st (Path.join folder_path DEFAULT_CSV) = true ->
  fst (get_loudest_track_gain (Path.join folder_path DEFAULT_CSV) st) = Some l ->
  fst (get_album_max_gain (Path.join folder_path DEFAULT_CSV) st) = Some a ->
  let g := py_min l a in
  let out := process_album folder_path dry_run st in
  (Float.ltb (Float.abs (Float.sub g a)) Float.lit_0_01 = true ->
     fs (fst out) = fs st /\
     log (fst out) = (log st ++ [(INFO, NoNeedToWrite (album_name folder_path) l a)])%list /\
     snd out = Ok tt) /\
  (Float.ltb (Float.abs (Float.sub g a)) Float.lit_0_01 = false ->
     dry_run = false ->
     forall names, listdir st folder_path = Ok names -> NoDup names ->
     snd out = Ok tt /\
     forall n c,
       In n names -> recognized (Path.join folder_path n) = true ->
       fs st !! Path.join folder_path n = Some (File c) ->
       fs (fst out) !! Path.join folder_path n =
         Some (File (fst (tag_write (Path.join folder_path n) g c))) /\
       forall e, snd (tag_write (Path.join folder_path n) g c) = Raise e ->
                 In (ERROR, WriteFailed (Path.join folder_path n) e) (log (fst out))).
Proof.
  intros Hf Hl Ha g out.
  destruct (process_album_tolerance_calls folder_path dry_run st l a Hf Hl Ha)
    as [Hnear Hfar].
  split; [exact Hnear|].
  intros Htol -> names Hls Hnd. fold g in Hfar. subst out.
  rewrite (Hfar Htol names Hls). cbn [fst snd]. split; [reflexivity|].
  intros n c Hn Hrec Hfile.
  assert (Hnd' : NoDup (List.filter (fun n => recognized (Path.join folder_path n)) names))
    by now apply NoDup_ListNoDup, List.NoDup_filter, NoDup_ListNoDup.
  apply (write_loop_content folder_path g _ Hnd').
  - apply filter_In. now split.
  - exact Hfile.
Qed.

End ScriptFacts.

(** ** The theorems at work on the examples *)

Module Witness.

Import Example.

Abbreviation run := (process_album PyFloat.float).
Abbreviation loudest := (get_loudest_track_gain PyFloat.float).
Abbreviation ceiling := (get_album_max_gain PyFloat.float).

(** The gain of the complete album is -3.0, the smaller of -3.0 and -2.5. *)
Lemma process_album_gain_is_min_witness :
  isfile complete (Path.join folder DEFAULT_CSV) = true /\
  fst (loudest (Path.join folder DEFAULT_CSV) complete) = Some minus_3 /\
  fst (ceiling (Path.join folder DEFAULT_CSV) complete) = Some minus_2_5 /\
  exists g, (g = minus_3 \/ g = minus_2_5) /\
            Float.ltb minus_3 g = false /\ Float.ltb minus_2_5 g = false.
Proof.
  assert (H1 : isfile complete (Path.join folder DEFAULT_CSV) = true)
    by (vm_compute; reflexivity).
  assert (H2 : fst (loudest (Path.join folder DEFAULT_CSV) complete) = Some minus_3)
    by (vm_compute; reflexivity).
  assert (H3 : fst (ceiling (Path.join folder DEFAULT_CSV) complete) = Some minus_2_5)
    by (vm_compute; reflexivity).
  repeat (split; [assumption|]).
  destruct (process_album_gain_is_min PyFloat.float folder false complete
              minus_3 minus_2_5 H1 H2 H3) as (g & Hg & Hl & Ha & _).
  exists g. auto.
Defined.

(** -3.0 is half a decibel away from -2.5: TrackA, which had no tag,
    gets one that holds "-3.00 dB". *)
Lemma process_album_tolerance_witness :
  isfile complete (Path.join folder DEFAULT_CSV) = true /\
  fst (loudest (Path.join folder DEFAULT_CSV) complete) = Some minus_3 /\
  fst (ceiling (Path.join folder DEFAULT_CSV) complete) = Some minus_2_5 /\
  Float.ltb (Float.abs (Float.sub (py_min minus_3 minus_2_5) minus_2_5))
    Float.lit_0_01 = false /\
  listdir complete folder = Ok listing /\
  NoDup listing /\
  recognized (Path.join folder "TrackA.mp3") = true /\
  fs complete !! Path.join folder "TrackA.mp3" = Some (File (Mem.Mp3File None)) /\
  fs (fst (run folder false complete)) !! Path.join folder "TrackA.mp3" =
    Some (File (Mem.Mp3File (Some [(MP3_TAG_KEY, "-3.00 dB")]))).
Proof.
  assert (H1 : isfile complete (Path.join folder DEFAULT_CSV) = true)
    by (vm_compute; reflexivity).
  assert (H2 : fst (loudest (Path.join folder DEFAULT_CSV) complete) = Some minus_3)
    by (vm_compute; reflexivity).
  assert (H3 : fst (ceiling (Path.join folder DEFAULT_CSV) complete) = Some minus_2_5)
    by (vm_compute; reflexivity).
  assert (H4 : Float.ltb (Float.abs (Float.sub (py_min minus_3 minus_2_5) minus_2_5))
                 Float.lit_0_01 = false) by (vm_compute; reflexivity).
  assert (H5 : listdir complete folder = Ok listing) by (vm_compute; reflexivity).
  assert (H6 : NoDup listing).
  { apply (bool_decide_unpack _). vm_compute. exact I. }
  assert (H7 : recognized (Path.join folder "TrackA.mp3") = true)
    by (vm_compute; reflexivity).
  assert (H8 : fs complete !! Path.join folder "TrackA.mp3"
               = Some (File (Mem.Mp3File None))) by (vm_compute; reflexivity).
  repeat (split; [assumption|]).
  destruct (process_album_tolerance PyFloat.float folder false complete
              minus_3 minus_2_5 H1 H2 H3) as [_ Hfar].
  destruct (Hfar H4 eq_refl listing H5 H6) as [_ Hfiles].
  destruct (Hfiles "TrackA.mp3" (Mem.Mp3File None) (or_introl eq_refl) H7 H8) as [Hc _].
  exact Hc.
Defined.


(** Without a summary row the album is skipped with the warning. *)
Lemma process_album_no_gain_witness :
  isfile no_summary (Path.join folder DEFAULT_CSV) = true /\
  List.find is_album (rows_of no_summary (Path.join folder DEFAULT_CSV)) = None /\
  exists errs,
    Forall (fun r => fst r = ERROR) errs /\
    fs (fst (run folder false no_summary)) = fs no_summary /\
    log (fst (run folder false no_summary)) =
      (log no_summary ++ errs ++ [(WARNING, NoValidGain (album_name folder))])%list /\
    snd (run folder false no_summary) = Ok tt.
Proof.
  assert (H1 : isfile no_summary (Path.join folder DEFAULT_CSV) = true)
    by (vm_compute; reflexivity).
  assert (H2 : List.find is_album (rows_of no_summary (Path.join folder DEFAULT_CSV)) = None)
    by (vm_compute; reflexivity).
  repeat (split; [assumption|]).
  exact (process_album_no_gain PyFloat.float folder false no_summary H1
           (or_intror (or_introl H2))).
Defined.

(** Eight processors give eight workers. *)
Lemma num_threads_fallback_witness :
  (forall n, Some 8 = Some n -> 1 <= n) /\
  num_threads (Some 8) = 8 /\ 1 <= num_threads (Some 8).
Proof.
  assert (H1 : forall n, Some 8 = Some n -> 1 <= n) by (intros n [= <-]; lia).
  split; [exact H1|]. exact (num_threads_fallback (Some 8) H1).
Defined.


(** The row with the gain "n/a" could as well not be there. *)
Lemma unparsable_row_is_skipped_witness :
  let r := ["TrackB.MP3"; "-8.0"; "n/a"] in
  open_csv bad_cell csv =
    Ok {| records := header :: [track_a] ++ r :: [summary]; failure := None |} /\
  open_csv short_row_removed csv =
    Ok {| records := header :: [track_a] ++ [summary]; failure := None |} /\
  log short_row_removed = log bad_cell /\
  dict_of_record header r !! "Filename" = Some (Some "TrackB.MP3") /\
  dict_of_record header r !! "Loudness (LUFS)" = Some (Some "-8.0") /\
  dict_of_record header r !! "Gain (dB)" = Some (Some "n/a") /\
  (PyFloat.float "-8.0" = None \/ PyFloat.float "n/a" = None) /\
  fst (loudest csv bad_cell) = fst (loudest csv short_row_removed) /\
  log (snd (loudest csv bad_cell)) = log (snd (loudest csv short_row_removed)).
Proof.
  intros r.
  assert (H1 : open_csv bad_cell csv =
    Ok {| records := header :: [track_a] ++ r :: [summary]; failure := None |})
    by (vm_compute; reflexivity).
  assert (H2 : open_csv short_row_removed csv =
    Ok {| records := header :: [track_a] ++ [summary]; failure := None |})
    by (vm_compute; reflexivity).
  assert (H3 : log short_row_removed = log bad_cell) by reflexivity.
  assert (H4 : dict_of_record header r !! "Filename" = Some (Some "TrackB.MP3"))
    by (vm_compute; reflexivity).
  assert (H5 : dict_of_record header r !! "Loudness (LUFS)" = Some (Some "-8.0"))
    by (vm_compute; reflexivity).
  assert (H6 : dict_of_record header r !! "Gain (dB)" = Some (Some "n/a"))
    by (vm_compute; reflexivity).
  assert (H7 : PyFloat.float "-8.0" = None \/ PyFloat.float "n/a" = None)
    by (right; vm_compute; reflexivity).
  repeat (split; [assumption|]).
  exact (unparsable_row_is_skipped PyFloat.float csv bad_cell short_row_removed header
           [track_a] r [summary] None "TrackB.MP3" "-8.0" "n/a" H1 H2 H3 H4 H5 H6 H7).
Defined.

(** TrackB is the loudest track of the complete album. *)
Lemma loudest_track_gain_first_max_witness :
  let stream := {| records := [header; track_a; track_b; summary]; failure := None |} in
  open_csv complete csv = Ok stream /\
  failure stream = None /\
  Forall complete_row (DictReader (records stream)) /\
  (exists d l g, In d (DictReader (records stream)) /\
     track_record PyFloat.float d = Some (l, g) /\
     Float.gtb l Float.lit_minus_999 = true) /\
  exists i d l g,
    DictReader (records stream) !! i = Some d /\
    track_record PyFloat.float d = Some (l, g) /\
    loudest csv complete = (Some g, complete) /\
    forall j d' l' g',
      DictReader (records stream) !! j = Some d' ->
      track_record PyFloat.float d' = Some (l', g') ->
      Float.ltb l l' = false /\
      (Float.is_nan l' = false -> Float.leb l' l = true) /\
      ((j < i)%nat -> Float.eqb l' l = false).
Proof.
  intros stream.
  assert (H1 : open_csv complete csv = Ok stream) by (vm_compute; reflexivity).
  assert (H2 : failure stream = None) by reflexivity.
  assert (H3 : Forall complete_row (DictReader (records stream))).
  { change (DictReader (records stream)) with
      [dict_of_record header track_a; dict_of_record header track_b;
       dict_of_record header summary].
    repeat constructor.
    - exists "TrackA.mp3", "-10.0", "-2.0". repeat split; vm_compute; reflexivity.
    - exists "TrackB.MP3", "-8.0", "-3.0". repeat split; vm_compute; reflexivity.
    - exists "album", "-", "-2.5". repeat split; vm_compute; reflexivity. }
  assert (H4 : exists d l g, In d (DictReader (records stream)) /\
     track_record PyFloat.float d = Some (l, g) /\
     Float.gtb l Float.lit_minus_999 = true).
  { exists (dict_of_record header track_a), (S754_finite true 5629499534213120 (-49)), minus_2.
    split; [left; vm_compute; reflexivity|]. split; vm_compute; reflexivity. }
  repeat (split; [assumption|]).
  exact (loudest_track_gain_first_max PyFloat.float csv complete stream H1 H2 H3 H4).
Defined.

(** A track row of a report without loudness column: the read fails. *)
Lemma missing_column_skips_album_witness :
  let stream := {| records := [["Filename"; "Gain (dB)"]; ["TrackA.mp3"; "-2.0"];
                               ["album"; "-2.5"]];
                   failure := None |} in
  let csv_path := Path.join folder DEFAULT_CSV in
  isfile no_loudness_column_track csv_path = true /\
  open_csv no_loudness_column_track csv_path = Ok stream /\
  In "Loudness (LUFS)" required_columns /\
  ~ In "Loudness (LUFS)" ["Filename"; "Gain (dB)"] /\
  fst (loudest csv_path no_loudness_column_track) = None /\
  exists e, snd (loudest csv_path no_loudness_column_track) =
            logging ERROR (UnableToReadCsv csv_path e) no_loudness_column_track.
Proof.
  intros stream csv_path.
  assert (H1 : isfile no_loudness_column_track csv_path = true)
    by (vm_compute; reflexivity).
  assert (H2 : open_csv no_loudness_column_track csv_path = Ok stream)
    by (vm_compute; reflexivity).
  assert (H3 : In "Loudness (LUFS)" required_columns) by (right; left; reflexivity).
  assert (H4 : ~ In "Loudness (LUFS)" ["Filename"; "Gain (dB)"]).
  { intros [Heq|[Heq|[]]]; discriminate. }
  repeat (split; [assumption|]).
  destruct (missing_column_skips_album PyFloat.float folder false no_loudness_column_track
              stream ["Filename"; "Gain (dB)"]
              [["TrackA.mp3"; "-2.0"]; ["album"; "-2.5"]] "Loudness (LUFS)"
              H1 H2 eq_refl H3 H4) as (Hnone & _ & Herr).
  split; [exact Hnone|]. apply Herr.
  exists (dict_of_record ["Filename"; "Gain (dB)"] ["TrackA.mp3"; "-2.0"]).
  split; [left; vm_compute; reflexivity|].
  right. split; [vm_compute; reflexivity|]. left. reflexivity.
Defined.

(** The gain returned for the complete album is that of TrackB. *)
Lemma loudest_gain_is_of_a_track_witness :
  fst (loudest csv complete) = Some minus_3 /\
  exists d l, In d (rows_of complete csv) /\
              track_record PyFloat.float d = Some (l, minus_3) /\
              Float.ltb Float.lit_minus_999 l = true /\ Float.is_nan l = false.
Proof.
  assert (H1 : fst (loudest csv complete) = Some minus_3) by (vm_compute; reflexivity).
  split; [exact H1|].
  exact (loudest_gain_is_of_a_track PyFloat.float csv complete minus_3 H1).
Defined.

(** The complete album and the album without its summary row have the
    same loudest track. *)
Lemma summary_row_is_no_track_witness :
  open_csv complete csv =
    Ok {| records := header :: [track_a; track_b] ++ summary :: []; failure := None |} /\
  open_csv no_summary csv =
    Ok {| records := header :: [track_a; track_b] ++ []; failure := None |} /\
  log no_summary = log complete /\
  is_album (dict_of_record header summary) = true /\
  fst (loudest csv complete) = fst (loudest csv no_summary) /\
  log (snd (loudest csv complete)) = log (snd (loudest csv no_summary)).
Proof.
  assert (H1 : open_csv complete csv =
    Ok {| records := header :: [track_a; track_b] ++ summary :: []; failure := None |})
    by (vm_compute; reflexivity).
  assert (H2 : open_csv no_summary csv =
    Ok {| records := header :: [track_a; track_b] ++ []; failure := None |})
    by (vm_compute; reflexivity).
  assert (H3 : log no_summary = log complete) by reflexivity.
  assert (H4 : is_album (dict_of_record header summary) = true)
    by (vm_compute; reflexivity).
  repeat (split; [assumption|]).
  exact (summary_row_is_no_track PyFloat.float csv complete no_summary header
           [track_a; track_b] summary [] None H1 H2 H3 H4).
Defined.

(** The album gain of the complete album is the -2.5 of its summary row. *)
Lemma album_gain_is_of_first_summary_witness :
  fst (ceiling csv complete) = Some minus_2_5 /\
  exists d, List.find is_album (rows_of complete csv) = Some d /\
            cell_float PyFloat.float d "Gain (dB)" = Some minus_2_5.
Proof.
  assert (H1 : fst (ceiling csv complete) = Some minus_2_5) by (vm_compute; reflexivity).
  split; [exact H1|].
  exact (album_gain_is_of_first_summary PyFloat.float csv complete minus_2_5 H1).
Defined.

(** The cover is left alone, even in a real run. *)
Lemma write_gain_other_suffix_witness :
  recognized "Music/Album/cover.jpg" = false /\
  write_gain "Music/Album/cover.jpg" minus_3 false complete = complete.
Proof.
  assert (H1 : recognized "Music/Album/cover.jpg" = false) by (vm_compute; reflexivity).
  split; [exact H1|].
  exact (write_gain_other_suffix "Music/Album/cover.jpg" minus_3 false complete H1).
Defined.

(** A track that is in no directory. *)
Lemma write_gain_not_a_file_witness :
  recognized "Music/Album/Ghost.mp3" = true /\
  isfile complete "Music/Album/Ghost.mp3" = false /\
  write_gain "Music/Album/Ghost.mp3" minus_3 false complete =
    logging ERROR (WriteFailed "Music/Album/Ghost.mp3" OSError) complete.
Proof.
  assert (H1 : recognized "Music/Album/Ghost.mp3" = true) by (vm_compute; reflexivity).
  assert (H2 : isfile complete "Music/Album/Ghost.mp3" = false) by (vm_compute; reflexivity).
  repeat (split; [assumption|]).
  exact (write_gain_not_a_file "Music/Album/Ghost.mp3" minus_3 complete H1 H2).
Defined.

(** A text file in a directory named like a track. *)
Lemma recognized_by_name_witness :
  Str.rfind "/" "notes.txt" = None /\
  recognized (Path.join "Music/Live.mp3" "notes.txt") =
  in_valid_extensions (Str.lower (Path.suffix_of_name "notes.txt")).
Proof.
  assert (H1 : Str.rfind "/" "notes.txt" = None) by (vm_compute; reflexivity).
  split; [exact H1|].
  exact (recognized_by_name "Music/Live.mp3" "notes.txt" H1).
Defined.

(** -3.0 against an album gain of -2.5. *)
Lemma written_gain_is_loudest_witness :
  (forall s, minus_2_5 <> S754_infinity s) /\
  within_tolerance (py_min minus_3 minus_2_5) minus_2_5 = false /\
  py_min minus_3 minus_2_5 = minus_3 /\ Float.ltb minus_2_5 minus_3 = false.
Proof.
  assert (H1 : forall s, minus_2_5 <> S754_infinity s) by (intros s; discriminate).
  assert (H2 : within_tolerance (py_min minus_3 minus_2_5) minus_2_5 = false)
    by (vm_compute; reflexivity).
  repeat (split; [assumption|]).
  exact (written_gain_is_loudest minus_3 minus_2_5 H1 H2).
Defined.

(** The report breaks off after TrackA: no gain, and the error. *)
Lemma broken_report_has_no_loudest_gain_witness :
  let stream := {| records := [header; track_a]; failure := Some LibraryError |} in
  open_csv broken csv = Ok stream /\
  failure stream = Some LibraryError /\
  exists e', loudest csv broken = (None, logging ERROR (UnableToReadCsv csv e') broken).
Proof.
  intros stream.
  assert (H1 : open_csv broken csv = Ok stream) by (vm_compute; reflexivity).
  assert (H2 : failure stream = Some LibraryError) by reflexivity.
  repeat (split; [assumption|]).
  exact (broken_report_has_no_loudest_gain PyFloat.float csv broken stream LibraryError H1 H2).
Defined.

(** A cover and the report: the decision is logged, that is all. *)
Lemma process_album_nothing_to_write_witness :
  isfile no_tracks (Path.join folder DEFAULT_CSV) = true /\
  fst (loudest (Path.join folder DEFAULT_CSV) no_tracks) = Some minus_3 /\
  fst (ceiling (Path.join folder DEFAULT_CSV) no_tracks) = Some minus_2_5 /\
  within_tolerance (py_min minus_3 minus_2_5) minus_2_5 = false /\
  listdir no_tracks folder = Ok ["cover.jpg"; "replaygain.csv"] /\
  (forall n, In n ["cover.jpg"; "replaygain.csv"] ->
     recognized (Path.join folder n) = false) /\
  run folder false no_tracks =
    (logging INFO (WillWrite (album_name folder) minus_3 minus_2_5
                     (py_min minus_3 minus_2_5)) no_tracks, Ok tt).
Proof.
  assert (H1 : isfile no_tracks (Path.join folder DEFAULT_CSV) = true)
    by (vm_compute; reflexivity).
  assert (H2 : fst (loudest (Path.join folder DEFAULT_CSV) no_tracks) = Some minus_3)
    by (vm_compute; reflexivity).
  assert (H3 : fst (ceiling (Path.join folder DEFAULT_CSV) no_tracks) = Some minus_2_5)
    by (vm_compute; reflexivity).
  assert (H4 : within_tolerance (py_min minus_3 minus_2_5) minus_2_5 = false)
    by (vm_compute; reflexivity).
  assert (H5 : listdir no_tracks folder = Ok ["cover.jpg"; "replaygain.csv"])
    by (vm_compute; reflexivity).
  assert (H6 : forall n, In n ["cover.jpg"; "replaygain.csv"] ->
                 recognized (Path.join folder n) = false).
  { intros n [<-|[<-|[]]]; vm_compute; reflexivity. }
  repeat (split; [assumption|]).
  exact (process_album_nothing_to_write PyFloat.float folder false no_tracks
           minus_3 minus_2_5 ["cover.jpg"; "replaygain.csv"] H1 H2 H3 H4 H5 H6).
Defined.

End Witness.

(** ** Where the code departs from a reading of its description *)

Module Counterexample.

Import Example.

(** C2. A report whose only track has the loudness -1000: the row is a
    valid track record, and still no gain is returned, since the loop
    starts from -999.  And a report with the valid track record TrackA,
    louder than -999, and a row after it that ends before its gain cell:
    the read fails and no gain is returned either. *)
Lemma valid_track_yet_no_gain :
  ((exists d l g, In d (rows_of very_quiet csv) /\
      track_record PyFloat.float d = Some (l, g)) /\
   get_loudest_track_gain PyFloat.float csv very_quiet = (None, very_quiet)) /\
  ((exists d l g, In d (rows_of short_row csv) /\
      track_record PyFloat.float d = Some (l, g) /\
      Float.gtb l Float.lit_minus_999 = true) /\
   fst (get_loudest_track_gain PyFloat.float csv short_row) = None).
Proof.
  split; split.
  - exists (dict_of_record header ["TrackA.mp3"; "-1000"; "-2.0"]),
      (S754_finite true 8796093022208000 (-43)), minus_2.
    split; [left; vm_compute; reflexivity|]. vm_compute. reflexivity.
  - vm_compute. reflexivity.
  - exists (dict_of_record header track_a),
      (S754_finite true 5629499534213120 (-49)), minus_2.
    split; [left; vm_compute; reflexivity|]. split; vm_compute; reflexivity.
  - vm_compute. reflexivity.
Qed.

(** C3. A dry run of the complete album: the selected gain is half a
    decibel away from the album gain and TrackA.mp3 is a recognized
    entry of the listing, and the file is not written: it has no tag
    afterwards, as before. *)
Lemma dry_run_writes_no_file :
  within_tolerance (py_min minus_3 minus_2_5) minus_2_5 = false /\
  listdir complete folder = Ok listing /\
  In "TrackA.mp3" listing /\
  recognized (Path.join folder "TrackA.mp3") = true /\
  fs complete !! Path.join folder "TrackA.mp3" = Some (File (Mem.Mp3File None)) /\
  fs (fst (process_album PyFloat.float folder true complete))
    !! Path.join folder "TrackA.mp3" = Some (File (Mem.Mp3File None)).
Proof.
  split; [vm_compute; reflexivity|]. split; [vm_compute; reflexivity|].
  split; [now left|]. repeat split; vm_compute; reflexivity.
Qed.

(** C5. A track row that ends before its gain cell: the cell is [None],
    [float] raises [TypeError], and the read of the whole report fails,
    while the report without the row gives the gain of TrackA. *)
Lemma short_row_aborts_report :
  dict_of_record header ["TrackB.MP3"; "-8.0"] !! "Gain (dB)" = Some None /\
  float_of_cell PyFloat.float None = Raise TypeError /\
  get_loudest_track_gain PyFloat.float csv short_row =
    (None, logging ERROR (UnableToReadCsv csv TypeError) short_row) /\
  get_loudest_track_gain PyFloat.float csv short_row_removed =
    (Some minus_2, short_row_removed).
Proof. repeat split; vm_compute; reflexivity. Qed.

(** C7. One processor gives one worker. *)
Lemma num_threads_single_processor :
  num_threads (Some 1) = 1 /\ ~ (2 <= num_threads (Some 1)).
Proof. split; [reflexivity|]. vm_compute. intros Hle. now apply Hle. Qed.

(** C10. A report without loudness column that has only its summary
    row: the album is skipped with the warning, no error is logged, and
    [get_album_max_gain] does return the album gain. *)
Lemma missing_column_without_error :
  ~ In "Loudness (LUFS)" ["Filename"; "Gain (dB)"] /\
  open_csv no_loudness_column csv =
    Ok {| records := [["Filename"; "Gain (dB)"]; ["album"; "-2.5"]]; failure := None |} /\
  log (fst (process_album PyFloat.float folder false no_loudness_column)) =
    [(WARNING, NoValidGain "[Album]")] /\
  fst (get_album_max_gain PyFloat.float csv no_loudness_column) = Some minus_2_5.
Proof.
  split; [intros [Heq|[Heq|[]]]; discriminate|].
  repeat split; vm_compute; reflexivity.
Qed.

End Counterexample.
